(** * Heal.io health band: the sampling, classification and render loop

    Shallow embedding of [research&dl/code.cpp], an Arduino sketch for an
    ESP32-S2 board with a finger switch, an MPU6050 accelerometer, an analog
    ECG input and an SSD1306 OLED.  The sketch keeps four globals
    ([simulatedBPM], [lastBPMUpdate], [activityStatus], [fingerDetected]) and
    the display object; [setup] runs once and [loop] runs for ever.

    Everything the sketch reads from the outside world on one pass of [loop]
    (pin level, the two [millis()] readings, the random word, the three
    acceleration components, the ADC sample) is gathered in a [TickInput], so
    that [loop] is a total function from a state and an input to a state. *)

From Stdlib Require Import ZArith QArith List String Ascii Bool Lia.
From Stdlib Require Import Floats.SpecFloat.
From Stdlib Require DecimalString.
From Stdlib Require DecimalPos DecimalZ DecimalFacts.
Import ListNotations.
Open Scope Z_scope.

Set Implicit Arguments.

(** ** Machine integers and core functions of the Arduino runtime *)

Module Arduino.

Definition HIGH : Z := 1.
Definition LOW : Z := 0.

(** [unsigned long] is 32 bits wide on the target: values live in
    [0, 2^32) and arithmetic wraps. *)
Definition to_ulong (z : Z) : Z := z mod 2 ^ 32.

(** [long] and [int] are 32-bit two's complement. *)
Definition to_long (z : Z) : Z :=
  let u := z mod 2 ^ 32 in
  if u <? 2 ^ 31 then u else u - 2 ^ 32.

(** [a - b] where [a] is [unsigned long] and [b] is [long]: the usual
    arithmetic conversions turn [b] into [unsigned long] and the
    difference wraps modulo 2^32. *)
Definition ulong_sub (a b : Z) : Z := to_ulong (to_ulong a - to_ulong b).

(** Modelled from the spec: the random integer generator
    [next(lowInclusive, highExclusive)] is the Arduino core's
    [random(howsmall, howbig)], which is not part of the sketch.  It
    returns [howsmall] when the range is empty and otherwise reduces a
    word of the random source modulo the width of the range.  The word
    consumed by the call is [entropy]. *)
Definition random (howsmall howbig : Z) (entropy : Z) : Z :=
  if howsmall >=? howbig then howsmall
  else to_long (to_ulong entropy mod (howbig - howsmall) + howsmall).

(** Decimal text written by [Print::print(int)]: an optional minus sign
    followed by the digits, most significant first. *)
Definition print_int (n : Z) : string :=
  DecimalString.NilZero.string_of_int (Z.to_int n).

End Arduino.

(** ** IEEE-754 single precision, as computed on the target

    [float] is binary32 (24-bit significand, exponents below 128) and
    [double] is binary64.  The operations are the Standard Library's
    executable specification of IEEE arithmetic, rounding to nearest
    even. *)

Module Float32.

Definition prec : Z := 24.
Definition emax : Z := 128.

Definition float := spec_float.

Definition valid (x : float) : bool := valid_binary prec emax x.

Definition mul (x y : float) : float := SFmul prec emax x y.
Definition add (x y : float) : float := SFadd prec emax x y.
Definition sqrt (x : float) : float := SFsqrt prec emax x.

(** The [sq(x)] macro of Arduino.h: [((x)*(x))]. *)
Definition sq (x : float) : float := mul x x.

(** Conversion of a [float] operand to [double] in a mixed comparison. *)
Definition to_double (x : float) : spec_float :=
  match x with
  | S754_finite s m e => binary_round 53 1024 s m e
  | _ => x
  end.

(** The [double] literals of the sketch, as their binary64 encodings. *)
Definition lit_11_0 : spec_float := S754_finite false 6192449487634432 (-49).
Definition lit_9_9 : spec_float := S754_finite false 5573204538870989 (-49).
Definition lit_9_7 : spec_float := S754_finite false 5460614548186726 (-49).

(** [x > c] and [x < c] for a [float] [x] and a [double] literal [c]. *)
Definition gt_lit (x : float) (c : spec_float) : bool := SFltb c (to_double x).
Definition lt_lit (x : float) (c : spec_float) : bool := SFltb (to_double x) c.

(** The exact rational value of a finite float, [(-1)^s * m * 2^e]. *)
Definition value (x : float) : Q :=
  match x with
  | S754_finite s m e =>
      match e with
      | Zneg p => Qmake (cond_Zopp s (Zpos m)) (2 ^ p)%positive
      | _ => Qmake (cond_Zopp s (Zpos m) * 2 ^ e) 1
      end
  | _ => 0%Q
  end.

(** Order against a rational threshold over the extended reals; a NaN
    compares with nothing. *)
Definition above (x : float) (q : Q) : Prop :=
  match x with
  | S754_nan => False
  | S754_infinity s => s = false
  | _ => (q < value x)%Q
  end.

Definition below (x : float) (q : Q) : Prop :=
  match x with
  | S754_nan => False
  | S754_infinity s => s = true
  | _ => (value x < q)%Q
  end.

End Float32.

(** ** The SSD1306 display behind the Adafruit_GFX text interface

    The frame buffer is kept as the list of drawing primitives issued
    since the last [clearDisplay]; [display] commits it to the panel.
    Text is drawn with the classic 6x8 font: one glyph per character cell,
    the cursor moving 6 pixels per character and 8 per line, both scaled
    by the text size, wrapping at the right edge. *)

Module SSD1306.

Definition SCREEN_WIDTH : Z := 128.
Definition SCREEN_HEIGHT : Z := 64.
Definition SSD1306_WHITE : Z := 1.

Inductive DrawOp : Type :=
| Glyph (x y : Z) (c : ascii) (size color : Z)
| Line (x0 y0 x1 y1 : Z) (color : Z).

Definition Frame := list DrawOp.

Record t : Type := mk {
  cursor_x : Z;
  cursor_y : Z;
  textsize : Z;
  textcolor : Z;
  buffer : Frame;
  screen : Frame
}.

(** State left by the constructor and [begin]: cursor at the origin,
    size 1, colour 0xFFFF, and whatever splash image [begin] loaded. *)
Definition boot (splash : Frame) : t :=
  mk 0 0 1 65535 splash [].

Definition clearDisplay (d : t) : t :=
  mk (cursor_x d) (cursor_y d) (textsize d) (textcolor d) [] (screen d).

Definition display (d : t) : t :=
  mk (cursor_x d) (cursor_y d) (textsize d) (textcolor d) (buffer d) (buffer d).

Definition setCursor (x y : Z) (d : t) : t :=
  mk x y (textsize d) (textcolor d) (buffer d) (screen d).

Definition setTextSize (n : Z) (d : t) : t :=
  mk (cursor_x d) (cursor_y d) (if 0 <? n then n else 1) (textcolor d)
     (buffer d) (screen d).

Definition setTextColor (c : Z) (d : t) : t :=
  mk (cursor_x d) (cursor_y d) (textsize d) c (buffer d) (screen d).

Definition drawLine (x0 y0 x1 y1 color : Z) (d : t) : t :=
  mk (cursor_x d) (cursor_y d) (textsize d) (textcolor d)
     (buffer d ++ [Line x0 y0 x1 y1 color]) (screen d).

(** [Adafruit_GFX::write]: a line feed starts a new line, a carriage
    return is ignored, any other character wraps if its cell would pass
    the right edge, is drawn at the cursor and advances it. *)
Definition write (c : ascii) (d : t) : t :=
  let '(mk cx cy ts tc buf scr) := d in
  if Ascii.eqb c "010"%char then mk 0 (cy + ts * 8) ts tc buf scr
  else if Ascii.eqb c "013"%char then d
  else
    let '(cx, cy) := if cx + ts * 6 >? SCREEN_WIDTH
                     then (0, cy + ts * 8) else (cx, cy) in
    mk (cx + ts * 6) cy ts tc (buf ++ [Glyph cx cy c ts tc]) scr.

Fixpoint print (s : string) (d : t) : t :=
  match s with
  | EmptyString => d
  | String c s' => print s' (write c d)
  end.

(** [println] writes the text followed by a carriage return and a line
    feed. *)
Definition println (s : string) (d : t) : t :=
  print (String "013" (String "010" EmptyString)) (print s d).

Definition print_int (n : Z) (d : t) : t := print (Arduino.print_int n) d.

(** The glyphs that [print s] draws from cursor [(x, y)]. *)
Definition text_at (size color x y : Z) (s : string) : Frame :=
  buffer (print s (mk x y size color [] [])).

(** Where the cursor stands after [print s] from [(x, y)]. *)
Definition cursor_after (size x y : Z) (s : string) : Z * Z :=
  let d := print s (mk x y size 0 [] []) in (cursor_x d, cursor_y d).

End SSD1306.

(** ** The sketch *)

Import Arduino.

(** The global variables of the sketch, and the display object. *)
Record State : Type := mkState {
  simulatedBPM : Z;
  lastBPMUpdate : Z;
  activityStatus : string;
  fingerDetected : bool;
  display : SSD1306.t
}.

(** What [setup] observes: whether the two [begin] calls succeed and the
    frame buffer left by the display driver. *)
Record BootInput : Type := mkBoot {
  oled_ok : bool;
  mpu_ok : bool;
  splash : SSD1306.Frame
}.

(** What one pass of [loop] reads from its environment, in program order. *)
Record TickInput : Type := mkTick {
  finger_pin : Z;
  millis_check : Z;
  millis_stamp : Z;
  entropy : Z;
  accel_x : Float32.float;
  accel_y : Float32.float;
  accel_z : Float32.float;
  ecg_adc : Z
}.

(** Initial values of the globals (lines 30-33). *)
Definition globals (d : SSD1306.t) : State :=
  mkState 0 0 "Idle" false d.

(** [setup]: either driver failing to start parks the program in an
    endless loop, so no state is handed to [loop] ([None]); otherwise the
    boot banner is drawn and committed. *)
Definition setup (b : BootInput) : option State :=
  if negb (oled_ok b) then None
  else if negb (mpu_ok b) then None
  else
    let d := SSD1306.boot (splash b) in
    let d := SSD1306.clearDisplay d in
    let d := SSD1306.setTextSize 1 d in
    let d := SSD1306.setTextColor SSD1306.SSD1306_WHITE d in
    let d := SSD1306.println "System Ready" d in
    let d := SSD1306.display d in
    Some (globals d).

(** Lines 69-73: the finger switch. *)
Definition check_finger (i : TickInput) (s : State) : State :=
  if finger_pin i =? HIGH
  then mkState (simulatedBPM s) (lastBPMUpdate s) (activityStatus s) true
               (display s)
  else mkState (simulatedBPM s) (lastBPMUpdate s) (activityStatus s) false
               (display s).

(** Lines 76-83: the simulated heart rate. *)
Definition simulate_heart_rate (i : TickInput) (s : State) : State :=
  if fingerDetected s then
    if ulong_sub (millis_check i) (lastBPMUpdate s) >? 2000 then
      mkState (to_long (random 68 85 (entropy i)))
              (to_long (millis_stamp i))
              (activityStatus s) (fingerDetected s) (display s)
    else s
  else
    mkState 0 (lastBPMUpdate s) (activityStatus s) (fingerDetected s)
            (display s).

(** Line 88: the magnitude of the acceleration vector, in [float]. *)
Definition totalAccel (ax ay az : Float32.float) : Float32.float :=
  Float32.sqrt
    (Float32.add (Float32.add (Float32.sq ax) (Float32.sq ay))
                 (Float32.sq az)).

(** Lines 90-92: the three-way threshold test. *)
Definition classify (m : Float32.float) : string :=
  if Float32.gt_lit m Float32.lit_11_0 then "Active"
  else if Float32.lt_lit m Float32.lit_9_9 && Float32.gt_lit m Float32.lit_9_7
       then "Resting"
  else "Moving".

Definition read_motion (i : TickInput) (s : State) : State :=
  mkState (simulatedBPM s) (lastBPMUpdate s)
          (classify (totalAccel (accel_x i) (accel_y i) (accel_z i)))
          (fingerDetected s) (display s).

(** Lines 98-127: the frame. *)
Definition draw_header (d : SSD1306.t) : SSD1306.t :=
  let d := SSD1306.setCursor 0 0 d in
  let d := SSD1306.println "HEALTH MONITOR" d in
  SSD1306.drawLine 0 10 128 10 SSD1306.SSD1306_WHITE d.

Definition draw_data (bpm : Z) (status : string) (ecgValue : Z)
    (d : SSD1306.t) : SSD1306.t :=
  let d := SSD1306.setCursor 0 15 d in
  let d := SSD1306.print "BPM: " d in
  let d := SSD1306.print_int bpm d in
  let d := SSD1306.setCursor 0 27 d in
  let d := SSD1306.print "Status: " d in
  let d := SSD1306.print status d in
  let d := SSD1306.setCursor 0 39 d in
  let d := SSD1306.print "ECG: " d in
  SSD1306.print_int ecgValue d.

Definition draw_warning (d : SSD1306.t) : SSD1306.t :=
  let d := SSD1306.setCursor 10 25 d in
  let d := SSD1306.setTextSize 1 d in
  let d := SSD1306.println "NO FINGER" d in
  let d := SSD1306.setCursor 10 35 d in
  SSD1306.println "DETECTED" d.

Definition update_display (i : TickInput) (s : State) : State :=
  let ecgValue := ecg_adc i in
  let d := SSD1306.clearDisplay (display s) in
  let d := draw_header d in
  let d := if fingerDetected s
           then draw_data (simulatedBPM s) (activityStatus s) ecgValue d
           else draw_warning d in
  mkState (simulatedBPM s) (lastBPMUpdate s) (activityStatus s)
          (fingerDetected s) (SSD1306.display d).

(** One pass of [loop]; the closing [delay(100)] only spaces the ticks. *)
Definition loop (s : State) (i : TickInput) : State :=
  update_display i (read_motion i (simulate_heart_rate i (check_finger i s))).

(** The states of the running sketch: the one [setup] leaves, and every
    state [loop] produces from one of them. *)
Inductive reachable : State -> Prop :=
| reach_setup : forall b s, setup b = Some s -> reachable s
| reach_loop : forall s i, reachable s -> reachable (loop s i).

Definition run (s : State) (inputs : list TickInput) : State :=
  fold_left loop inputs s.

(** The frame on the panel. *)
Definition frame (s : State) : SSD1306.Frame := SSD1306.screen (display s).

(** ** Layouts the frame is compared with *)

Definition text (x y : Z) (s : string) : SSD1306.Frame :=
  SSD1306.text_at 1 SSD1306.SSD1306_WHITE x y s.

Definition header_layout : SSD1306.Frame :=
  text 0 0 "HEALTH MONITOR" ++ [SSD1306.Line 0 10 128 10 SSD1306.SSD1306_WHITE].

Definition data_layout (bpm : Z) (status : string) (ecgValue : Z)
    : SSD1306.Frame :=
  text 0 15 "BPM: " ++ text 30 15 (print_int bpm)
  ++ text 0 27 "Status: " ++ text 48 27 status
  ++ text 0 39 "ECG: " ++ text 30 39 (print_int ecgValue).

Definition warning_layout : SSD1306.Frame :=
  text 10 25 "NO FINGER" ++ text 10 35 "DETECTED".

Definition banner_layout : SSD1306.Frame := text 0 0 "System Ready".

(** The frame as a function of the four values it shows. *)
Definition render (presence : bool) (bpm : Z) (status : string)
    (ecgValue : Z) : SSD1306.Frame :=
  header_layout ++
  (if presence then data_layout bpm status ecgValue else warning_layout).

(** The row a primitive starts on. *)
Definition row_of (op : SSD1306.DrawOp) : Z :=
  match op with
  | SSD1306.Glyph _ y _ _ _ => y
  | SSD1306.Line _ y0 _ _ _ => y0
  end.

(** The text state every drawing routine of the sketch relies on. *)
Definition text_ready (d : SSD1306.t) : Prop :=
  SSD1306.textsize d = 1 /\ SSD1306.textcolor d = SSD1306.SSD1306_WHITE.

(** Rows on which a frame draws nothing. *)
Definition rows_free (rows : list Z) (f : SSD1306.Frame) : Prop :=
  forall op, In op f -> ~ In (row_of op) rows.

Definition rows_freeb (rows : list Z) (f : SSD1306.Frame) : bool :=
  forallb (fun op => negb (existsb (Z.eqb (row_of op)) rows)) f.

(** A double literal [L * 2^-49] and a rational [qn / qd], both in the
    binade [8, 16), cut the single precision values of that binade (the
    multiples [x * 2^-20]) at the same place. *)
Definition same_cut (L : positive) (qn : Z) (qd : positive) : Prop :=
  8 * Zpos qd <= qn < 16 * Zpos qd
  /\ forall x : Z,
       (Zpos L < x * 2 ^ 29 <-> qn * 2 ^ 20 < x * Zpos qd)
       /\ (x * 2 ^ 29 < Zpos L <-> x * Zpos qd < qn * 2 ^ 20).

(** Finite values: zeros and numbers with a significand. *)
Definition is_finite (x : Float32.float) : bool :=
  match x with
  | S754_zero _ | S754_finite _ _ _ => true
  | _ => false
  end.

(** Not-a-number, infinite, and non-negative (a zero or number with the
    sign bit clear, or plus infinity) single precision values. *)
Definition is_nan (x : Float32.float) : bool :=
  match x with S754_nan => true | _ => false end.

Definition is_inf (x : Float32.float) : bool :=
  match x with S754_infinity _ => true | _ => false end.

Definition nonneg (x : Float32.float) : bool :=
  match x with
  | S754_zero false | S754_infinity false | S754_finite false _ _ => true
  | _ => false
  end.

(** Text without line feeds or carriage returns. *)
Fixpoint plain (s : string) : bool :=
  match s with
  | EmptyString => true
  | String c s' =>
      negb (Ascii.eqb c "010") && negb (Ascii.eqb c "013") && plain s'
  end.

(** The glyphs of a text that stays on its line: one cell every 6
    pixels. *)
Fixpoint glyph_row (x y : Z) (s : string) : SSD1306.Frame :=
  match s with
  | EmptyString => []
  | String c s' =>
      SSD1306.Glyph x y c 1 SSD1306.SSD1306_WHITE :: glyph_row (x + 6) y s'
  end.

(** The range of a 32-bit [int]. *)
Definition int_range (n : Z) : Prop := - 2 ^ 31 <= n < 2 ^ 31.

(** The three fields and the two warning lines as single lines of
    glyphs. *)
Definition data_rows (bpm : Z) (status : string) (ecgValue : Z)
    : SSD1306.Frame :=
  glyph_row 0 15 ("BPM: " ++ print_int bpm)
  ++ glyph_row 0 27 ("Status: " ++ status)
  ++ glyph_row 0 39 ("ECG: " ++ print_int ecgValue).

Definition warning_rows : SSD1306.Frame :=
  glyph_row 10 25 "NO FINGER" ++ glyph_row 10 35 "DETECTED".

Definition header_rows : SSD1306.Frame :=
  glyph_row 0 0 "HEALTH MONITOR"
  ++ [SSD1306.Line 0 10 128 10 SSD1306.SSD1306_WHITE].

(** A glyph cell inside the 128x64 panel. *)
Definition cell_inside (op : SSD1306.DrawOp) : Prop :=
  match op with
  | SSD1306.Glyph x y _ size _ =>
      0 <= x /\ x + 6 * size <= SSD1306.SCREEN_WIDTH
      /\ 0 <= y /\ y + 8 * size <= SSD1306.SCREEN_HEIGHT
  | SSD1306.Line _ _ _ _ _ => True
  end.

(** A frame that is empty or starts off row [y]. *)
Definition starts_off (y : Z) (f : SSD1306.Frame) : Prop :=
  match f with
  | [] => True
  | op :: _ => row_of op <> y
  end.

(** The elapsed time the sketch computes on line 77. *)
Definition elapsed (i : TickInput) (s : State) : Z :=
  ulong_sub (millis_check i) (lastBPMUpdate s).

(** ** Sample boots and ticks *)

Definition boot_ok : BootInput := mkBoot true true [].

(** The state a successful [setup] hands to [loop]. *)
Definition powered_on : State :=
  match setup boot_ok with
  | Some s => s
  | None => globals (SSD1306.boot [])
  end.

(** 9.8 m/s^2 along one axis, as the nearest [float]. *)
Definition gravity : Float32.float := S754_finite false 10276045 (-20).

(** The [float]s nearest to 9.9 and to 9.7; both lie just below the
    decimal values. *)
Definition nearest_9_9 : Float32.float := S754_finite false 10380902 (-20).
Definition nearest_9_7 : Float32.float := S754_finite false 10171187 (-20).

(** 12 and 11 m/s^2, both exact in [float]. *)
Definition twelve : Float32.float := S754_finite false 12582912 (-20).
Definition eleven : Float32.float := S754_finite false 11534336 (-20).

(** A tick with the finger on and the whole acceleration [az] along one
    axis. *)
Definition axis_tick (az : Float32.float) : TickInput :=
  mkTick HIGH 1200 1200 7 (S754_zero false) (S754_zero false) az 512.

(** A tick with the switch at level [pin], the clock at [now] on both
    readings, the band lying flat and the ADC reading 512. *)
Definition still_tick (pin now : Z) : TickInput :=
  mkTick pin now now 7 (S754_zero false) (S754_zero false) gravity 512.

(** * Properties *)

(** ** Machine arithmetic *)

Lemma to_long_id (z : Z) : - 2 ^ 31 <= z < 2 ^ 31 -> to_long z = z.
Proof.
  intros Hz. unfold to_long.
  destruct (Z_lt_le_dec z 0) as [Hneg | Hpos].
  - replace (z mod 2 ^ 32) with (z + 2 ^ 32).
    + destruct (Z.ltb_spec (z + 2 ^ 32) (2 ^ 31)); lia.
    + apply Z.mod_unique with (q := -1); lia.
  - rewrite Z.mod_small by lia.
    destruct (Z.ltb_spec z (2 ^ 31)); lia.
Qed.

Lemma to_ulong_range (z : Z) : 0 <= to_ulong z < 2 ^ 32.
Proof. unfold to_ulong. apply Z.mod_pos_bound. lia. Qed.

Lemma ulong_sub_range (a b : Z) : 0 <= ulong_sub a b < 2 ^ 32.
Proof. apply to_ulong_range. Qed.

(** The elapsed time is the true difference whenever the clock is at most
    one wrap ahead of the stored stamp. *)
Lemma ulong_sub_exact (now last : Z) :
  0 <= now - last < 2 ^ 32 -> ulong_sub now last = now - last.
Proof.
  intros H. unfold ulong_sub, to_ulong.
  rewrite <- Zminus_mod. apply Z.mod_small. exact H.
Qed.

(** Keeping the stamp in a signed [long] loses nothing: the difference
    is the one of the two clock readings, modulo 2^32. *)
Lemma ulong_sub_to_long (now stamp : Z) :
  ulong_sub now (to_long stamp) = (now - stamp) mod 2 ^ 32.
Proof.
  unfold ulong_sub, to_ulong, to_long.
  assert (H : (if stamp mod 2 ^ 32 <? 2 ^ 31
               then stamp mod 2 ^ 32
               else stamp mod 2 ^ 32 - 2 ^ 32) mod 2 ^ 32
              = stamp mod 2 ^ 32).
  { destruct (stamp mod 2 ^ 32 <? 2 ^ 31).
    - apply Z.mod_mod. lia.
    - replace (stamp mod 2 ^ 32 - 2 ^ 32)
        with (stamp mod 2 ^ 32 + (-1) * 2 ^ 32) by lia.
      rewrite Z.mod_add by lia. apply Z.mod_mod. lia. }
  rewrite H. rewrite <- Zminus_mod. reflexivity.
Qed.

Lemma random_range (lo hi e : Z) :
  lo < hi -> - 2 ^ 31 <= lo -> hi <= 2 ^ 31 ->
  lo <= random lo hi e < hi.
Proof.
  intros Hlt Hlo Hhi. unfold random.
  destruct (Z.geb_spec lo hi) as [Hge | _]; [lia |].
  assert (Hm : 0 <= to_ulong e mod (hi - lo) < hi - lo)
    by (apply Z.mod_pos_bound; lia).
  rewrite to_long_id; lia.
Qed.

Lemma random_68_85 (e : Z) : 68 <= random 68 85 e < 85.
Proof. apply random_range; lia. Qed.

(** Every value of the range can be drawn. *)
Lemma random_onto (v : Z) :
  68 <= v < 85 -> exists e : Z, random 68 85 e = v.
Proof.
  intros Hv. exists (v - 68). unfold random, to_ulong.
  destruct (Z.geb_spec 68 85) as [Hge | _]; [lia |].
  rewrite (Z.mod_small (v - 68)) by lia.
  replace (85 - 68) with 17 by lia.
  rewrite Z.mod_small by lia.
  rewrite to_long_id; lia.
Qed.

Lemma drawn_bpm (e : Z) : to_long (random 68 85 e) = random 68 85 e.
Proof. apply to_long_id. pose proof (random_68_85 e). lia. Qed.

(** ** What one tick does to the globals *)

Lemma loop_fingerDetected (s : State) (i : TickInput) :
  fingerDetected (loop s i) = (finger_pin i =? HIGH).
Proof.
  unfold loop, update_display, read_motion, simulate_heart_rate, check_finger.
  destruct (finger_pin i =? HIGH); simpl.
  - destruct (ulong_sub (millis_check i) (lastBPMUpdate s) >? 2000);
      reflexivity.
  - reflexivity.
Qed.

Lemma loop_absent (s : State) (i : TickInput) :
  (finger_pin i =? HIGH) = false ->
  simulatedBPM (loop s i) = 0 /\ lastBPMUpdate (loop s i) = lastBPMUpdate s.
Proof.
  intros H.
  unfold loop, update_display, read_motion, simulate_heart_rate, check_finger.
  rewrite H. simpl. split; reflexivity.
Qed.

Lemma loop_regenerate (s : State) (i : TickInput) :
  (finger_pin i =? HIGH) = true -> (elapsed i s >? 2000) = true ->
  simulatedBPM (loop s i) = random 68 85 (entropy i) /\
  lastBPMUpdate (loop s i) = to_long (millis_stamp i).
Proof.
  intros H He. unfold elapsed in He.
  unfold loop, update_display, read_motion, simulate_heart_rate, check_finger.
  rewrite H. simpl. rewrite He. simpl. rewrite drawn_bpm. split; reflexivity.
Qed.

Lemma loop_retain (s : State) (i : TickInput) :
  (finger_pin i =? HIGH) = true -> (elapsed i s >? 2000) = false ->
  simulatedBPM (loop s i) = simulatedBPM s /\
  lastBPMUpdate (loop s i) = lastBPMUpdate s.
Proof.
  intros H He. unfold elapsed in He.
  unfold loop, update_display, read_motion, simulate_heart_rate, check_finger.
  rewrite H. simpl. rewrite He. simpl. split; reflexivity.
Qed.

Lemma loop_activityStatus (s : State) (i : TickInput) :
  activityStatus (loop s i) =
  classify (totalAccel (accel_x i) (accel_y i) (accel_z i)).
Proof.
  unfold loop, update_display, read_motion. reflexivity.
Qed.

(** ** The display driver *)

Section Driver.

Import SSD1306.

Lemma write_frame (c : ascii) (d : t) :
  write c d =
  mk (cursor_x (write c (mk (cursor_x d) (cursor_y d) (textsize d) 0 [] [])))
     (cursor_y (write c (mk (cursor_x d) (cursor_y d) (textsize d) 0 [] [])))
     (textsize d) (textcolor d)
     (buffer d ++
      buffer (write c (mk (cursor_x d) (cursor_y d) (textsize d)
                          (textcolor d) [] [])))
     (screen d).
Proof.
  destruct d as [cx cy ts tc buf scr]. unfold write.
  cbn [cursor_x cursor_y textsize textcolor buffer screen].
  destruct (Ascii.eqb c "010").
  - cbn [cursor_x cursor_y buffer]. rewrite app_nil_r. reflexivity.
  - destruct (Ascii.eqb c "013").
    + cbn [cursor_x cursor_y buffer]. rewrite app_nil_r. reflexivity.
    + destruct (cx + ts * 6 >? SCREEN_WIDTH); reflexivity.
Qed.

(** [print] only appends to the buffer, and what it appends and where it
    leaves the cursor depend on the cursor and the text size alone. *)
Lemma print_frame (s : string) :
  forall d : t,
    print s d =
    mk (fst (cursor_after (textsize d) (cursor_x d) (cursor_y d) s))
       (snd (cursor_after (textsize d) (cursor_x d) (cursor_y d) s))
       (textsize d) (textcolor d)
       (buffer d ++
        text_at (textsize d) (textcolor d) (cursor_x d) (cursor_y d) s)
       (screen d).
Proof.
  induction s as [| c s IH]; intros d.
  - destruct d. unfold cursor_after, text_at.
    cbn [print fst snd cursor_x cursor_y textsize textcolor buffer screen].
    rewrite app_nil_r. reflexivity.
  - destruct d as [cx cy ts tc buf scr].
    unfold cursor_after, text_at.
    cbn [print fst snd cursor_x cursor_y textsize textcolor buffer screen].
    rewrite (IH (write c (mk cx cy ts tc buf scr))).
    rewrite (IH (write c (mk cx cy ts 0 [] []))).
    rewrite (IH (write c (mk cx cy ts tc [] []))).
    unfold write.
    destruct (Ascii.eqb c "010");
      [cbn [fst snd cursor_x cursor_y textsize textcolor buffer screen];
       reflexivity |].
    destruct (Ascii.eqb c "013");
      [cbn [fst snd cursor_x cursor_y textsize textcolor buffer screen];
       reflexivity |].
    destruct (cx + ts * 6 >? SCREEN_WIDTH);
      cbn [fst snd cursor_x cursor_y textsize textcolor buffer screen app];
      rewrite <- app_assoc; reflexivity.
Qed.

Lemma println_frame (s : string) (d : t) :
  textsize d = 1 ->
  buffer (println s d) =
    buffer d ++ text_at 1 (textcolor d) (cursor_x d) (cursor_y d) s
  /\ textsize (println s d) = 1
  /\ textcolor (println s d) = textcolor d
  /\ screen (println s d) = screen d.
Proof.
  intros Hs. unfold println. rewrite (print_frame s d). rewrite Hs.
  simpl. repeat split; reflexivity.
Qed.

(** Every glyph of a size-1 text sits a whole number of text lines below
    the row the text started on. *)
Lemma print_rows (s : string) :
  forall (d : t) (y0 : Z),
    textsize d = 1 ->
    (exists k, 0 <= k /\ cursor_y d = y0 + 8 * k) ->
    (forall op, In op (buffer d) ->
                exists k, 0 <= k /\ row_of op = y0 + 8 * k) ->
    forall op, In op (buffer (print s d)) ->
               exists k, 0 <= k /\ row_of op = y0 + 8 * k.
Proof.
  induction s as [| c s IH]; intros d y0 Hs Hc Hb op Hin.
  - simpl in Hin. apply Hb. exact Hin.
  - simpl in Hin. revert Hin.
    destruct d as [cx cy ts tc buf scr].
    cbn [textsize cursor_y buffer] in Hs, Hc, Hb. subst ts.
    destruct Hc as [k [Hk Hy]].
    unfold write.
    destruct (Ascii.eqb c "010");
      [apply IH; [reflexivity | exists (k + 1); cbn [cursor_y]; lia
                 | exact Hb] |].
    destruct (Ascii.eqb c "013");
      [apply IH; [reflexivity | exists k; exact (conj Hk Hy) | exact Hb] |].
    destruct (cx + 1 * 6 >? SCREEN_WIDTH); apply IH; try reflexivity.
    + exists (k + 1). cbn [cursor_y]. lia.
    + cbn [buffer]. intros op' Hin'.
      apply in_app_or in Hin'. destruct Hin' as [Hin' | [Hin' | []]].
      * apply Hb. exact Hin'.
      * subst op'. exists (k + 1). cbn [row_of]. lia.
    + exists k. cbn [cursor_y]. lia.
    + cbn [buffer]. intros op' Hin'.
      apply in_app_or in Hin'. destruct Hin' as [Hin' | [Hin' | []]].
      * apply Hb. exact Hin'.
      * subst op'. exists k. cbn [row_of]. lia.
Qed.

Lemma text_rows (x y : Z) (s : string) (op : DrawOp) :
  In op (text x y s) -> exists k, 0 <= k /\ row_of op = y + 8 * k.
Proof.
  unfold text, text_at. apply print_rows.
  - reflexivity.
  - exists 0. simpl. lia.
  - intros op' [].
Qed.

End Driver.

(** ** The frame composed by one tick *)

Section Composer.

Lemma draw_header_frame (d : SSD1306.t) :
  text_ready d ->
  SSD1306.buffer (draw_header d) = SSD1306.buffer d ++ header_layout
  /\ text_ready (draw_header d)
  /\ SSD1306.screen (draw_header d) = SSD1306.screen d.
Proof.
  intros [Hs Hc]. destruct d as [cx cy ts tc buf scr].
  cbn [SSD1306.textsize SSD1306.textcolor] in Hs, Hc. subst ts tc.
  unfold text_ready. cbv -[app header_layout].
  rewrite <- !app_assoc. repeat split; reflexivity.
Qed.

Lemma draw_warning_frame (d : SSD1306.t) :
  text_ready d ->
  SSD1306.buffer (draw_warning d) = SSD1306.buffer d ++ warning_layout
  /\ text_ready (draw_warning d)
  /\ SSD1306.screen (draw_warning d) = SSD1306.screen d.
Proof.
  intros [Hs Hc]. destruct d as [cx cy ts tc buf scr].
  cbn [SSD1306.textsize SSD1306.textcolor] in Hs, Hc. subst ts tc.
  unfold text_ready. cbv -[app warning_layout].
  rewrite <- !app_assoc. repeat split; reflexivity.
Qed.

(** A labelled field: the label, then the value where the label ended. *)
Lemma field_frame (x y : Z) (label value : string) (d : SSD1306.t) :
  text_ready d ->
  let d' :=
    SSD1306.print value (SSD1306.print label (SSD1306.setCursor x y d)) in
  SSD1306.buffer d' =
    SSD1306.buffer d ++ text x y label
    ++ text (fst (SSD1306.cursor_after 1 x y label))
            (snd (SSD1306.cursor_after 1 x y label)) value
  /\ text_ready d'
  /\ SSD1306.screen d' = SSD1306.screen d.
Proof.
  intros [Hs Hc] d'. subst d'. unfold text_ready, text.
  rewrite (print_frame value). rewrite (print_frame label).
  destruct d as [cx cy ts tc buf scr].
  cbn [SSD1306.textsize SSD1306.textcolor] in Hs, Hc. subst ts tc.
  cbn [SSD1306.setCursor SSD1306.buffer SSD1306.textsize SSD1306.textcolor
       SSD1306.cursor_x SSD1306.cursor_y SSD1306.screen].
  rewrite <- app_assoc. repeat split; reflexivity.
Qed.

Lemma draw_data_frame (bpm : Z) (status : string) (ecgValue : Z)
    (d : SSD1306.t) :
  text_ready d ->
  SSD1306.buffer (draw_data bpm status ecgValue d)
    = SSD1306.buffer d ++ data_layout bpm status ecgValue
  /\ text_ready (draw_data bpm status ecgValue d)
  /\ SSD1306.screen (draw_data bpm status ecgValue d) = SSD1306.screen d.
Proof.
  intros Hr. unfold draw_data, SSD1306.print_int.
  destruct (field_frame 0 15 "BPM: " (Arduino.print_int bpm) Hr)
    as (Hb1 & Hr1 & Hs1).
  destruct (field_frame 0 27 "Status: " status Hr1) as (Hb2 & Hr2 & Hs2).
  destruct (field_frame 0 39 "ECG: " (Arduino.print_int ecgValue) Hr2)
    as (Hb3 & Hr3 & Hs3).
  split; [| split; [exact Hr3 |]].
  - rewrite Hb3, Hb2, Hb1. unfold data_layout.
    rewrite <- !app_assoc. reflexivity.
  - rewrite Hs3, Hs2, Hs1. reflexivity.
Qed.

Lemma screen_display (d : SSD1306.t) :
  SSD1306.screen (SSD1306.display d) = SSD1306.buffer d.
Proof. reflexivity. Qed.

Lemma text_ready_display (d : SSD1306.t) :
  text_ready d -> text_ready (SSD1306.display d).
Proof. intros H. exact H. Qed.

Lemma text_ready_clearDisplay (d : SSD1306.t) :
  text_ready d -> text_ready (SSD1306.clearDisplay d).
Proof. intros H. exact H. Qed.

Lemma buffer_clearDisplay (d : SSD1306.t) :
  SSD1306.buffer (SSD1306.clearDisplay d) = [].
Proof. reflexivity. Qed.

Lemma update_display_frame (i : TickInput) (s : State) :
  text_ready (display s) ->
  frame (update_display i s)
    = render (fingerDetected s) (simulatedBPM s) (activityStatus s)
             (ecg_adc i)
  /\ text_ready (display (update_display i s)).
Proof.
  intros Hr. destruct s as [bpm last st fd d].
  unfold frame, update_display, render.
  cbn [display fingerDetected simulatedBPM activityStatus] in *.
  rewrite screen_display.
  destruct (draw_header_frame (text_ready_clearDisplay Hr)) as (Hb & Hr' & _).
  rewrite buffer_clearDisplay, app_nil_l in Hb.
  destruct fd.
  - destruct (draw_data_frame bpm st (ecg_adc i) Hr') as (Hb' & Hr'' & _).
    rewrite Hb', Hb. split; [reflexivity |].
    apply text_ready_display. exact Hr''.
  - destruct (draw_warning_frame Hr') as (Hb' & Hr'' & _).
    rewrite Hb', Hb. split; [reflexivity |].
    apply text_ready_display. exact Hr''.
Qed.

Lemma vitals_display (i : TickInput) (s : State) :
  display (read_motion i (simulate_heart_rate i (check_finger i s)))
  = display s.
Proof.
  unfold read_motion, simulate_heart_rate, check_finger.
  destruct (finger_pin i =? HIGH); cbn [fingerDetected display];
    [destruct (_ >? 2000) |]; reflexivity.
Qed.

Lemma update_display_globals (i : TickInput) (s : State) :
  simulatedBPM (update_display i s) = simulatedBPM s
  /\ lastBPMUpdate (update_display i s) = lastBPMUpdate s
  /\ activityStatus (update_display i s) = activityStatus s
  /\ fingerDetected (update_display i s) = fingerDetected s.
Proof. repeat split; reflexivity. Qed.

Lemma loop_frame (s : State) (i : TickInput) :
  text_ready (display s) ->
  frame (loop s i)
    = render (fingerDetected (loop s i)) (simulatedBPM (loop s i))
             (activityStatus (loop s i)) (ecg_adc i)
  /\ text_ready (display (loop s i)).
Proof.
  intros Hr. unfold loop.
  rewrite <- (vitals_display i s) in Hr.
  destruct (update_display_frame i _ Hr) as [Hf Hr'].
  destruct (update_display_globals i
              (read_motion i (simulate_heart_rate i (check_finger i s))))
    as (Hb & _ & Ha & Hd).
  rewrite Hb, Ha, Hd. split; [exact Hf | exact Hr'].
Qed.

Lemma setup_frame (b : BootInput) (s : State) :
  setup b = Some s ->
  frame s = banner_layout /\ text_ready (display s)
  /\ simulatedBPM s = 0 /\ lastBPMUpdate s = 0
  /\ activityStatus s = "Idle"%string /\ fingerDetected s = false.
Proof.
  unfold setup. destruct (oled_ok b); [| discriminate].
  destruct (mpu_ok b); [| discriminate].
  cbn [negb]. intros H. injection H as <-.
  unfold text_ready. repeat split; reflexivity.
Qed.

Lemma reachable_text_ready (s : State) :
  reachable s -> text_ready (display s).
Proof.
  induction 1 as [b s Hb | s i _ IH].
  - apply (setup_frame b Hb).
  - apply (loop_frame s i IH).
Qed.

End Composer.

(** ** Presence *)

(** C7: presence detection is a stateless single-sample read: after every
    tick the flag equals the level read on that tick, it is true exactly
    when the pin reads HIGH, and it does not depend on the state the tick
    started from (so not on the previous flag either). *)
Theorem presence_is_pin_level (s : State) (i : TickInput) :
  fingerDetected (loop s i) = (finger_pin i =? HIGH)
  /\ (fingerDetected (loop s i) = true <-> finger_pin i = HIGH)
  /\ (forall s' : State,
        fingerDetected (loop s' i) = fingerDetected (loop s i)).
Proof.
  split; [apply loop_fingerDetected |]. split.
  - rewrite loop_fingerDetected. apply Z.eqb_eq.
  - intros s'. rewrite !loop_fingerDetected. reflexivity.
Qed.

Lemma presence_is_pin_level_witness :
  fingerDetected (loop powered_on (still_tick HIGH 1200)) = true
  /\ fingerDetected (loop (loop powered_on (still_tick HIGH 1200))
                          (still_tick LOW 1300)) = false.
Proof.
  split.
  - apply (proj1 (proj2 (presence_is_pin_level powered_on
                           (still_tick HIGH 1200)))).
    reflexivity.
  - rewrite (proj1 (presence_is_pin_level _ (still_tick LOW 1300))).
    reflexivity.
Defined.

(** ** The simulated heart rate *)

(** C2: on every tick that ends with no finger detected the heart-rate
    value is 0 on that very tick, whatever the state before the tick; the
    same holds right after the heart-rate stage. *)
Theorem absent_finger_zero_bpm (s : State) (i : TickInput) :
  fingerDetected (loop s i) = false ->
  simulatedBPM (loop s i) = 0
  /\ simulatedBPM (simulate_heart_rate i (check_finger i s)) = 0.
Proof.
  rewrite loop_fingerDetected. intros H. split.
  - apply (loop_absent s i H).
  - unfold simulate_heart_rate, check_finger. rewrite H. reflexivity.
Qed.

Lemma absent_finger_zero_bpm_witness :
  fingerDetected (loop (mkState 72 500 "Moving" true (display powered_on))
                       (still_tick LOW 900)) = false
  /\ simulatedBPM (loop (mkState 72 500 "Moving" true (display powered_on))
                        (still_tick LOW 900)) = 0.
Proof.
  split; [reflexivity |].
  apply (absent_finger_zero_bpm
           (mkState 72 500 "Moving" true (display powered_on))
           (still_tick LOW 900)).
  reflexivity.
Defined.

Lemma regenerate_tick (s : State) (i : TickInput) :
  (finger_pin i =? HIGH) = true ->
  elapsed i s > 2000 ->
  simulatedBPM (loop s i) = random 68 85 (entropy i)
  /\ 68 <= simulatedBPM (loop s i) < 85
  /\ lastBPMUpdate (loop s i) = to_long (millis_stamp i).
Proof.
  intros Hp He.
  assert (Hgt : (elapsed i s >? 2000) = true) by (apply Z.gtb_lt; lia).
  destruct (loop_regenerate s i Hp Hgt) as [Hv Ht].
  rewrite Hv. split; [reflexivity |]. split; [apply random_68_85 | exact Ht].
Qed.

(** C3, as amended: on every tick with a finger detected and MORE than
    2000 ms elapsed since the stored stamp (the unsigned difference the
    sketch computes), the value becomes the number drawn on this tick,
    which lies in [68, 85), and the stamp becomes the clock reading taken
    for it. *)
Theorem regeneration_after_2000 (s : State) (i : TickInput) :
  fingerDetected (loop s i) = true ->
  elapsed i s > 2000 ->
  simulatedBPM (loop s i) = random 68 85 (entropy i)
  /\ 68 <= simulatedBPM (loop s i) < 85
  /\ lastBPMUpdate (loop s i) = to_long (millis_stamp i).
Proof.
  rewrite loop_fingerDetected. intros Hp He.
  exact (regenerate_tick s i Hp He).
Qed.

Lemma regeneration_after_2000_witness :
  fingerDetected (loop powered_on (still_tick HIGH 2001)) = true
  /\ elapsed (still_tick HIGH 2001) powered_on > 2000
  /\ simulatedBPM (loop powered_on (still_tick HIGH 2001)) = 75
  /\ lastBPMUpdate (loop powered_on (still_tick HIGH 2001)) = 2001.
Proof.
  assert (Hp : fingerDetected (loop powered_on (still_tick HIGH 2001)) = true)
    by reflexivity.
  assert (He : elapsed (still_tick HIGH 2001) powered_on > 2000)
    by reflexivity.
  destruct (regeneration_after_2000 powered_on (still_tick HIGH 2001) Hp He)
    as (Hv & _ & Ht).
  split; [exact Hp |]. split; [exact He |].
  split; [rewrite Hv; reflexivity | rewrite Ht; reflexivity].
Defined.

(** C3 as stated fails at exactly 2000 ms: powered on with the stamp at 0,
    a tick at clock 2000 with the finger present has 2000 ms elapsed, yet
    the value stays 0 (not in [68, 85)) and the stamp stays 0. *)
Lemma regeneration_at_2000_counterexample :
  fingerDetected (loop powered_on (still_tick HIGH 2000)) = true
  /\ elapsed (still_tick HIGH 2000) powered_on >= 2000
  /\ simulatedBPM (loop powered_on (still_tick HIGH 2000)) = 0
  /\ ~ (68 <= simulatedBPM (loop powered_on (still_tick HIGH 2000)) < 85)
  /\ lastBPMUpdate (loop powered_on (still_tick HIGH 2000)) = 0
  /\ lastBPMUpdate (loop powered_on (still_tick HIGH 2000))
     <> to_long (millis_stamp (still_tick HIGH 2000)).
Proof.
  assert (Hv : simulatedBPM (loop powered_on (still_tick HIGH 2000)) = 0)
    by reflexivity.
  assert (Ht : lastBPMUpdate (loop powered_on (still_tick HIGH 2000)) = 0)
    by reflexivity.
  split; [reflexivity |]. split; [discriminate |].
  split; [exact Hv |]. split; [rewrite Hv; lia |].
  split; [exact Ht |]. rewrite Ht. discriminate.
Qed.

(** C4: on every tick with a finger detected and fewer than 2000 ms
    elapsed since the stored stamp, both the value and the stamp are what
    they were before the tick. *)
Theorem retention_within_2000 (s : State) (i : TickInput) :
  fingerDetected (loop s i) = true ->
  elapsed i s < 2000 ->
  simulatedBPM (loop s i) = simulatedBPM s
  /\ lastBPMUpdate (loop s i) = lastBPMUpdate s.
Proof.
  rewrite loop_fingerDetected. intros Hp He.
  apply (loop_retain s i Hp).
  destruct (Z.gtb_spec (elapsed i s) 2000); [lia | reflexivity].
Qed.

Lemma retention_within_2000_witness :
  fingerDetected
    (loop (mkState 72 1000 "Moving" true (display powered_on))
          (still_tick HIGH 2500)) = true
  /\ elapsed (still_tick HIGH 2500)
             (mkState 72 1000 "Moving" true (display powered_on)) < 2000
  /\ simulatedBPM
       (loop (mkState 72 1000 "Moving" true (display powered_on))
             (still_tick HIGH 2500)) = 72
  /\ lastBPMUpdate
       (loop (mkState 72 1000 "Moving" true (display powered_on))
             (still_tick HIGH 2500)) = 1000.
Proof.
  split; [reflexivity |]. split; [reflexivity |].
  apply (retention_within_2000
           (mkState 72 1000 "Moving" true (display powered_on))
           (still_tick HIGH 2500)); reflexivity.
Defined.

Lemma run_absent (absent : list TickInput) :
  forall s : State,
    Forall (fun a => finger_pin a <> HIGH) absent ->
    lastBPMUpdate (run s absent) = lastBPMUpdate s
    /\ (absent <> [] -> simulatedBPM (run s absent) = 0).
Proof.
  induction absent as [| a rest IH] using rev_ind; intros s Hall.
  - split; [reflexivity | intros H; contradiction].
  - apply Forall_app in Hall. destruct Hall as [Hrest Ha].
    inversion Ha as [| a' l' Hpin _]; subst.
    unfold run. rewrite fold_left_app. cbn [fold_left].
    fold (run s rest).
    apply Z.eqb_neq in Hpin.
    destruct (loop_absent (run s rest) a Hpin) as [Hv Ht].
    split; [| intros _; exact Hv].
    rewrite Ht. apply (IH s Hrest).
Qed.

(** C5: a tick without a finger leaves the stamp as it was and only
    forces the value to 0; so after any run of ticks on which the switch
    does not read HIGH, the first tick with a finger measures the elapsed
    time from the stale stamp, and when that exceeds 2000 ms it regenerates
    the value on that very tick. *)
Theorem stale_timestamp_regenerates :
  (forall (s : State) (a : TickInput),
      fingerDetected (loop s a) = false ->
      lastBPMUpdate (loop s a) = lastBPMUpdate s
      /\ simulatedBPM (loop s a) = 0)
  /\
  (forall (s : State) (absent : list TickInput) (i : TickInput),
      Forall (fun a => finger_pin a <> HIGH) absent ->
      fingerDetected (loop (run s absent) i) = true ->
      ulong_sub (millis_check i) (lastBPMUpdate s) > 2000 ->
      lastBPMUpdate (run s absent) = lastBPMUpdate s
      /\ elapsed i (run s absent)
         = ulong_sub (millis_check i) (lastBPMUpdate s)
      /\ simulatedBPM (loop (run s absent) i) = random 68 85 (entropy i)
      /\ 68 <= simulatedBPM (loop (run s absent) i) < 85
      /\ lastBPMUpdate (loop (run s absent) i) = to_long (millis_stamp i)).
Proof.
  split.
  - intros s a. rewrite loop_fingerDetected. intros H.
    destruct (loop_absent s a H) as [Hv Ht]. split; assumption.
  - intros s absent i Hpins Hp He.
    rewrite loop_fingerDetected in Hp.
    destruct (run_absent s Hpins) as [Hstale _].
    assert (Hel : elapsed i (run s absent)
                  = ulong_sub (millis_check i) (lastBPMUpdate s))
      by (unfold elapsed; rewrite Hstale; reflexivity).
    split; [exact Hstale |]. split; [exact Hel |].
    apply regenerate_tick; [exact Hp | rewrite Hel; exact He].
Qed.

(** Worn until 3000 ms, taken off for two ticks, put back on at 5400 ms:
    the stamp is still 3000 and the value is redrawn at once. *)
Lemma stale_timestamp_regenerates_witness :
  lastBPMUpdate
    (run (mkState 72 3000 "Moving" true (display powered_on))
         [still_tick LOW 5200; still_tick LOW 5300]) = 3000
  /\ simulatedBPM
       (loop (run (mkState 72 3000 "Moving" true (display powered_on))
                  [still_tick LOW 5200; still_tick LOW 5300])
             (still_tick HIGH 5400)) = 75
  /\ lastBPMUpdate
       (loop (run (mkState 72 3000 "Moving" true (display powered_on))
                  [still_tick LOW 5200; still_tick LOW 5300])
             (still_tick HIGH 5400)) = 5400.
Proof.
  assert (Hpins : Forall (fun a => finger_pin a <> HIGH)
                         [still_tick LOW 5200; still_tick LOW 5300])
    by (repeat constructor; discriminate).
  destruct (proj2 stale_timestamp_regenerates
              (mkState 72 3000 "Moving" true (display powered_on))
              [still_tick LOW 5200; still_tick LOW 5300]
              (still_tick HIGH 5400) Hpins eq_refl eq_refl)
    as (Hstale & _ & Hv & _ & Ht).
  split; [exact Hstale |].
  split; [rewrite Hv; reflexivity | rewrite Ht; reflexivity].
Defined.

(** ** The stored value over a whole run *)

(** C9: in every state of the running sketch, from the one [setup]
    leaves onwards, the stored heart-rate value is 0 or lies in 68..84. *)
Theorem bpm_zero_or_in_range (s : State) :
  reachable s -> simulatedBPM s = 0 \/ 68 <= simulatedBPM s <= 84.
Proof.
  induction 1 as [b s Hb | s i _ IH].
  - left. apply (setup_frame b Hb).
  - destruct (finger_pin i =? HIGH) eqn:Hp.
    + destruct (elapsed i s >? 2000) eqn:He.
      * right. destruct (loop_regenerate s i Hp He) as [Hv _].
        rewrite Hv. pose proof (random_68_85 (entropy i)). lia.
      * destruct (loop_retain s i Hp He) as [Hv _]. rewrite Hv. exact IH.
    + left. apply (loop_absent s i Hp).
Qed.

Lemma bpm_zero_or_in_range_witness :
  reachable (loop powered_on (still_tick HIGH 2001))
  /\ (simulatedBPM (loop powered_on (still_tick HIGH 2001)) = 0
      \/ 68 <= simulatedBPM (loop powered_on (still_tick HIGH 2001)) <= 84).
Proof.
  assert (Hr : reachable (loop powered_on (still_tick HIGH 2001))).
  { apply reach_loop. apply (reach_setup boot_ok). reflexivity. }
  split; [exact Hr |].
  exact (bpm_zero_or_in_range Hr).
Defined.

(** ** The rendered frame *)

Lemma classify_labels (m : Float32.float) :
  classify m = "Active"%string \/ classify m = "Resting"%string
  \/ classify m = "Moving"%string.
Proof.
  unfold classify.
  destruct (Float32.gt_lit m Float32.lit_11_0); [left; reflexivity |].
  destruct (Float32.lt_lit m Float32.lit_9_9
            && Float32.gt_lit m Float32.lit_9_7);
    right; [left | right]; reflexivity.
Qed.

Lemma rows_freeb_sound (rows : list Z) (f : SSD1306.Frame) :
  rows_freeb rows f = true -> rows_free rows f.
Proof.
  unfold rows_freeb, rows_free. intros H op Hin Hrow.
  rewrite forallb_forall in H. specialize (H op Hin).
  apply negb_true_iff in H.
  assert (Hex : existsb (Z.eqb (row_of op)) rows = true).
  { apply existsb_exists. exists (row_of op).
    split; [exact Hrow | apply Z.eqb_refl]. }
  congruence.
Qed.

Lemma rows_free_app (rows : list Z) (f g : SSD1306.Frame) :
  rows_free rows f -> rows_free rows g -> rows_free rows (f ++ g).
Proof.
  intros Hf Hg op Hin. apply in_app_or in Hin.
  destruct Hin; [apply Hf | apply Hg]; assumption.
Qed.

(** A text started on a row that is no whole number of lines above any of
    [rows] never draws on them. *)
Lemma text_rows_free (rows : list Z) (x y : Z) (s : string) :
  Forall (fun r => (r - y) mod 8 <> 0 \/ r < y) rows ->
  rows_free rows (text x y s).
Proof.
  intros Hall op Hin Hrow.
  destruct (text_rows x y s op Hin) as [k [Hk Hy]].
  rewrite Forall_forall in Hall. specialize (Hall _ Hrow).
  rewrite Hy in Hall.
  destruct Hall as [Hmod | Hlt]; [| lia].
  apply Hmod. replace (y + 8 * k - y) with (k * 8) by lia.
  apply Z.mod_mul. lia.
Qed.

Lemma data_layout_rows (bpm : Z) (status : string) (ecgValue : Z) :
  status = "Active"%string \/ status = "Resting"%string
  \/ status = "Moving"%string ->
  rows_free [25; 35] (data_layout bpm status ecgValue).
Proof.
  intros Hst. unfold data_layout.
  apply rows_free_app; [apply rows_freeb_sound; reflexivity |].
  apply rows_free_app;
    [apply text_rows_free; apply Forall_forall;
     intros r [<- | [<- | []]]; left; vm_compute; discriminate |].
  apply rows_free_app; [apply rows_freeb_sound; reflexivity |].
  apply rows_free_app;
    [destruct Hst as [-> | [-> | ->]]; apply rows_freeb_sound; reflexivity |].
  apply rows_free_app; [apply rows_freeb_sound; reflexivity |].
  apply text_rows_free. apply Forall_forall.
  intros r [<- | [<- | []]]; right; lia.
Qed.

(** C6: every frame a tick commits starts with the header text and the
    separator line and then depends on presence alone: without a finger it
    is exactly the header followed by the two warning lines, and nothing is
    drawn on the rows of the three data fields; with a finger it is exactly
    the header followed by the three labelled fields (label at column 0,
    value right after the label, on rows 15, 27 and 39), and nothing is
    drawn on the rows of the warning. *)
Theorem frame_layout (s : State) (i : TickInput) :
  reachable s ->
  incl header_layout (frame (loop s i))
  /\ (fingerDetected (loop s i) = false ->
      frame (loop s i) = header_layout ++ warning_layout
      /\ rows_free [15; 27; 39] (frame (loop s i)))
  /\ (fingerDetected (loop s i) = true ->
      frame (loop s i)
      = header_layout
        ++ data_layout (simulatedBPM (loop s i)) (activityStatus (loop s i))
                       (ecg_adc i)
      /\ rows_free [25; 35] (frame (loop s i))).
Proof.
  intros Hr.
  destruct (loop_frame s i (reachable_text_ready Hr)) as [Hf _].
  rewrite Hf. unfold render. split; [apply incl_appl, incl_refl |].
  split; intros Hp; rewrite Hp; (split; [reflexivity |]).
  - apply rows_freeb_sound. reflexivity.
  - apply rows_free_app.
    + apply rows_freeb_sound. reflexivity.
    + apply data_layout_rows. rewrite loop_activityStatus.
      apply classify_labels.
Qed.

Lemma powered_on_reachable : reachable powered_on.
Proof. apply (reach_setup boot_ok). reflexivity. Qed.

(** Off the wrist the warning is shown; on the wrist, lying still with the
    ADC at 512 and a value just drawn, the three fields read 75, Resting
    and 512. *)
Lemma frame_layout_witness :
  frame (loop powered_on (still_tick LOW 1200))
  = header_layout ++ warning_layout
  /\ frame (loop powered_on (still_tick HIGH 2001))
     = header_layout ++ data_layout 75 "Resting" 512.
Proof.
  destruct (frame_layout (still_tick LOW 1200) powered_on_reachable)
    as (_ & Hoff & _).
  destruct (frame_layout (still_tick HIGH 2001) powered_on_reachable)
    as (_ & _ & Hon).
  split.
  - apply (Hoff eq_refl).
  - rewrite (proj1 (Hon eq_refl)). reflexivity.
Defined.

(** C8: the frame a tick commits is [render] of the presence flag, the
    heart-rate value, the activity label and the ADC sample, whatever the
    display showed or buffered before; so two ticks that agree on these
    four values commit identical frames. *)
Theorem render_deterministic (s1 s2 : State) (i1 i2 : TickInput) :
  reachable s1 -> reachable s2 ->
  fingerDetected (loop s1 i1) = fingerDetected (loop s2 i2) ->
  simulatedBPM (loop s1 i1) = simulatedBPM (loop s2 i2) ->
  activityStatus (loop s1 i1) = activityStatus (loop s2 i2) ->
  ecg_adc i1 = ecg_adc i2 ->
  frame (loop s1 i1)
  = render (fingerDetected (loop s1 i1)) (simulatedBPM (loop s1 i1))
           (activityStatus (loop s1 i1)) (ecg_adc i1)
  /\ frame (loop s1 i1) = frame (loop s2 i2).
Proof.
  intros Hr1 Hr2 Hp Hv Ha He.
  destruct (loop_frame s1 i1 (reachable_text_ready Hr1)) as [Hf1 _].
  destruct (loop_frame s2 i2 (reachable_text_ready Hr2)) as [Hf2 _].
  split; [exact Hf1 |].
  rewrite Hf1, Hf2, Hp, Hv, Ha, He. reflexivity.
Qed.

(** Straight after power-on, or after a tick that left the warning on the
    panel and ran the clock on: the same inputs give the same frame. *)
Lemma render_deterministic_witness :
  frame (loop powered_on (still_tick HIGH 2500))
  = frame (loop (loop powered_on (still_tick LOW 1200))
                (still_tick HIGH 2500)).
Proof.
  apply (render_deterministic (s1 := powered_on)
           (s2 := loop powered_on (still_tick LOW 1200))
           (still_tick HIGH 2500) (still_tick HIGH 2500)).
  - exact powered_on_reachable.
  - apply reach_loop. exact powered_on_reachable.
  - reflexivity.
  - reflexivity.
  - reflexivity.
  - reflexivity.
Defined.

Lemma idle_not_in_text (x y : Z) (s : string) :
  (27 - y) mod 8 <> 0 \/ 27 < y ->
  ~ In (SSD1306.Glyph 48 27 "I" 1 SSD1306.SSD1306_WHITE) (text x y s).
Proof.
  intros Hy Hin.
  apply (@text_rows_free [27] x y s) in Hin.
  - apply Hin. left. reflexivity.
  - constructor; [exact Hy | constructor].
Qed.

Lemma not_in_app (A : Type) (x : A) (f g : list A) :
  ~ In x f -> ~ In x g -> ~ In x (f ++ g).
Proof.
  intros Hf Hg Hin. apply in_app_or in Hin. destruct Hin; tauto.
Qed.

(** Membership in a frame that is known glyph by glyph. *)
Ltac absent_from_known_frame :=
  let Hin := fresh "Hin" in
  intros Hin; vm_compute in Hin;
  repeat (destruct Hin as [Hin | Hin]; [discriminate Hin |]);
  exact Hin.

Lemma idle_not_in_data (bpm : Z) (status : string) (ecgValue : Z) :
  status = "Active"%string \/ status = "Resting"%string
  \/ status = "Moving"%string ->
  ~ In (SSD1306.Glyph 48 27 "I" 1 SSD1306.SSD1306_WHITE)
       (header_layout ++ data_layout bpm status ecgValue).
Proof.
  intros Hst. unfold data_layout.
  apply not_in_app; [absent_from_known_frame |].
  apply not_in_app; [absent_from_known_frame |].
  apply not_in_app;
    [apply idle_not_in_text; left; vm_compute; discriminate |].
  apply not_in_app; [absent_from_known_frame |].
  apply not_in_app;
    [destruct Hst as [-> | [-> | ->]]; absent_from_known_frame |].
  apply not_in_app; [absent_from_known_frame |].
  apply idle_not_in_text. right. lia.
Qed.

Lemma classify_in_labels (m : Float32.float) :
  In (classify m) ["Active"; "Resting"; "Moving"]%string.
Proof.
  destruct (classify_labels m) as [H | [H | H]]; rewrite H; simpl; tauto.
Qed.

(** C10: every frame on the panel of the running sketch is the boot
    banner, the warning frame, or a data frame whose status field holds
    one of "Active", "Resting", "Moving"; the text "Idle" never stands in
    the status field; and whatever the label was before a tick (also the
    initial "Idle"), after the tick it is one of the three. *)
Theorem shown_label_is_classified (s : State) :
  reachable s ->
  (frame s = banner_layout
   \/ frame s = header_layout ++ warning_layout
   \/ exists bpm label ecgValue,
        In label ["Active"; "Resting"; "Moving"]%string
        /\ frame s = header_layout ++ data_layout bpm label ecgValue)
  /\ ~ incl (text 48 27 "Idle") (frame s)
  /\ (forall i : TickInput,
        In (activityStatus (loop s i)) ["Active"; "Resting"; "Moving"]%string
        /\ activityStatus (loop s i) <> "Idle"%string).
Proof.
  intros Hr.
  assert (Hidle : incl (text 48 27 "Idle") (frame s) ->
                  In (SSD1306.Glyph 48 27 "I" 1 SSD1306.SSD1306_WHITE)
                     (frame s)).
  { intros Hincl. apply Hincl. left. reflexivity. }
  split; [| split].
  - destruct Hr as [b s Hb | s i Hr].
    + left. apply (setup_frame b Hb).
    + destruct (loop_frame s i (reachable_text_ready Hr)) as [Hf _].
      rewrite Hf. unfold render.
      destruct (fingerDetected (loop s i)); [| right; left; reflexivity].
      right. right.
      exists (simulatedBPM (loop s i)), (activityStatus (loop s i)),
        (ecg_adc i).
      split; [| reflexivity].
      rewrite loop_activityStatus. apply classify_in_labels.
  - intros Hincl. apply Hidle in Hincl. revert Hincl.
    destruct Hr as [b s Hb | s i Hr].
    + rewrite (proj1 (setup_frame b Hb)). absent_from_known_frame.
    + destruct (loop_frame s i (reachable_text_ready Hr)) as [Hf _].
      rewrite Hf. unfold render.
      destruct (fingerDetected (loop s i)).
      * apply idle_not_in_data. rewrite loop_activityStatus.
        apply classify_labels.
      * absent_from_known_frame.
  - intros i. rewrite loop_activityStatus.
    split; [apply classify_in_labels |].
    destruct (classify_labels (totalAccel (accel_x i) (accel_y i) (accel_z i)))
      as [H | [H | H]]; rewrite H; discriminate.
Qed.

Lemma shown_label_is_classified_witness :
  reachable (loop powered_on (still_tick HIGH 2001))
  /\ frame (loop powered_on (still_tick HIGH 2001))
     = header_layout ++ data_layout 75 "Resting" 512
  /\ activityStatus powered_on = "Idle"%string
  /\ activityStatus (loop powered_on (still_tick HIGH 2001)) <> "Idle"%string.
Proof.
  assert (Hr : reachable (loop powered_on (still_tick HIGH 2001)))
    by (apply reach_loop; exact powered_on_reachable).
  split; [exact Hr |]. split; [reflexivity |]. split; [reflexivity |].
  apply (proj2 (proj2 (shown_label_is_classified powered_on_reachable))
               (still_tick HIGH 2001)).
Defined.

(** ** Rounding to a binary format *)

Section Rounding.

Variables prec emax : Z.
Hypothesis prec_pos : 0 < prec.

Lemma digits2_pos_size (p : positive) : digits2_pos p = Pos.size p.
Proof. induction p; simpl; congruence. Qed.

Lemma Zdigits2_log2 (m : Z) : 0 < m -> Zdigits2 m = Z.log2 m + 1.
Proof.
  destruct m as [| p | p]; try lia. intros _.
  unfold Zdigits2. rewrite digits2_pos_size.
  destruct p; simpl; lia.
Qed.

Lemma Zdigits2_nonneg (m : Z) : 0 <= Zdigits2 m.
Proof. destruct m; simpl; lia. Qed.

Lemma Zdigits2_mono (a b : Z) : 0 <= a <= b -> Zdigits2 a <= Zdigits2 b.
Proof.
  intros [Ha Hab].
  destruct (Z.eq_dec a 0) as [-> | Hne]; [apply Zdigits2_nonneg |].
  rewrite !Zdigits2_log2 by lia.
  apply Zplus_le_compat_r. apply Z.log2_le_mono. exact Hab.
Qed.

Lemma Zdigits2_lower (m k : Z) : 0 <= k -> 2 ^ k <= m -> k < Zdigits2 m.
Proof.
  intros Hk Hm.
  assert (0 < m) by (pose proof (Z.pow_pos_nonneg 2 k); lia).
  rewrite Zdigits2_log2 by assumption.
  apply Z.log2_le_pow2 in Hm; lia.
Qed.

Lemma Zdigits2_bounds (m : Z) :
  0 < m -> 2 ^ (Zdigits2 m - 1) <= m < 2 ^ Zdigits2 m.
Proof.
  intros Hm. rewrite Zdigits2_log2 by assumption.
  replace (Z.log2 m + 1 - 1) with (Z.log2 m) by lia.
  apply Z.log2_spec. exact Hm.
Qed.

Lemma shr_1_nonneg (mrs : shr_record) :
  0 <= shr_m mrs -> 0 <= shr_m (shr_1 mrs).
Proof.
  destruct mrs as [m r s]. simpl. intros Hm.
  destruct m as [| [p | p |] | p]; simpl; lia.
Qed.

Lemma shr_1_digits (mrs : shr_record) :
  0 <= shr_m mrs ->
  Zdigits2 (shr_m (shr_1 mrs)) = Z.max 0 (Zdigits2 (shr_m mrs) - 1).
Proof.
  destruct mrs as [m r s]. cbn [shr_m]. intros Hm.
  destruct m as [| [p | p |] | p]; cbn [shr_1 shr_m Zdigits2 digits2_pos];
    rewrite ?Pos2Z.inj_succ; lia.
Qed.

Lemma iter_shr_1 (n : positive) :
  forall mrs : shr_record,
    0 <= shr_m mrs ->
    0 <= shr_m (iter_pos shr_1 n mrs)
    /\ Zdigits2 (shr_m (iter_pos shr_1 n mrs))
       = Z.max 0 (Zdigits2 (shr_m mrs) - Zpos n).
Proof.
  induction n as [n IH | n IH |]; intros mrs Hm; simpl.
  - pose proof (@shr_1_nonneg mrs Hm) as H1.
    pose proof (@shr_1_digits mrs Hm) as D1.
    destruct (IH _ H1) as [H2 D2]. destruct (IH _ H2) as [H3 D3].
    split; [exact H3 |]. rewrite D3, D2, D1. lia.
  - destruct (IH _ Hm) as [H2 D2]. destruct (IH _ H2) as [H3 D3].
    split; [exact H3 |]. rewrite D3, D2. lia.
  - split; [apply shr_1_nonneg | apply shr_1_digits]; exact Hm.
Qed.

Lemma fexp_mono (a b : Z) : a <= b -> fexp prec emax a <= fexp prec emax b.
Proof. unfold fexp. lia. Qed.

(** Shifting down to the exponent the format asks for leaves a
    significand that is canonical for that exponent. *)
Lemma shr_fexp_canonical (m e : Z) (l : location) :
  0 <= m -> e <= fexp prec emax (Zdigits2 m + e) ->
  0 <= shr_m (fst (shr_fexp prec emax m e l))
  /\ fexp prec emax (Zdigits2 (shr_m (fst (shr_fexp prec emax m e l)))
                     + snd (shr_fexp prec emax m e l))
     = snd (shr_fexp prec emax m e l).
Proof.
  intros Hm He. unfold shr_fexp, shr.
  assert (Hrec : shr_m (shr_record_of_loc m l) = m)
    by (destruct l as [| []]; reflexivity).
  destruct (fexp prec emax (Zdigits2 m + e) - e) as [| n | n] eqn:Hn;
    cbn [fst snd]; try lia.
  - rewrite Hrec. split; [exact Hm | lia].
  - pose proof (@iter_shr_1 n (shr_record_of_loc m l)) as H.
    rewrite Hrec in H. destruct (H Hm) as [H1 D1].
    split; [exact H1 |]. rewrite D1.
    pose proof (Zdigits2_nonneg m). unfold fexp in *. lia.
Qed.

Lemma round_nearest_even_bounds (m : Z) (l : location) :
  m <= round_nearest_even m l <= m + 1.
Proof.
  unfold round_nearest_even.
  destruct l as [| []]; try lia. destruct (Z.even m); lia.
Qed.

(** The result of rounding is a member of the format. *)
Lemma binary_round_aux_valid (sx : bool) (mx ex : Z) (lx : location) :
  0 <= mx -> ex <= fexp prec emax (Zdigits2 mx + ex) ->
  valid_binary prec emax (binary_round_aux prec emax sx mx ex lx) = true.
Proof.
  intros Hm He. unfold binary_round_aux.
  destruct (@shr_fexp_canonical mx ex lx Hm He) as [H1 C1].
  destruct (shr_fexp prec emax mx ex lx) as [mrs1 e1]. cbn [fst snd] in H1, C1.
  set (m1 := round_nearest_even (shr_m mrs1) (loc_of_shr_record mrs1)).
  pose proof (@round_nearest_even_bounds (shr_m mrs1) (loc_of_shr_record mrs1))
    as Hb. fold m1 in Hb.
  assert (Hm1 : 0 <= m1) by lia.
  assert (He1 : e1 <= fexp prec emax (Zdigits2 m1 + e1)).
  { rewrite <- C1 at 1. apply fexp_mono.
    apply Zplus_le_compat_r. apply Zdigits2_mono. lia. }
  destruct (@shr_fexp_canonical m1 e1 loc_Exact Hm1 He1) as [H2 C2].
  destruct (shr_fexp prec emax m1 e1 loc_Exact) as [mrs2 e2].
  cbn [fst snd] in H2, C2.
  destruct (shr_m mrs2) as [| p | p] eqn:Hp; try reflexivity.
  destruct (e2 <=? emax - prec) eqn:Hle; [| reflexivity].
  unfold valid_binary, bounded, canonical_mantissa.
  rewrite Hle. cbn [Zdigits2] in C2. rewrite C2, Z.eqb_refl. reflexivity.
Qed.

Lemma sqrt_digits (m : Z) :
  0 < m -> (Zdigits2 m + 1) / 2 <= Zdigits2 (Z.sqrt m).
Proof.
  intros Hm.
  destruct (@Zdigits2_bounds m Hm) as [Hlo _].
  pose proof (Zdigits2_nonneg m) as Hd.
  assert (Hd1 : 1 <= Zdigits2 m)
    by (rewrite Zdigits2_log2 by lia; pose proof (Z.log2_nonneg m); lia).
  set (k := (Zdigits2 m + 1) / 2).
  assert (Hk : 1 <= k /\ 2 * (k - 1) <= Zdigits2 m - 1).
  { unfold k. pose proof (Z.div_mod (Zdigits2 m + 1) 2).
    pose proof (Z.mod_pos_bound (Zdigits2 m + 1) 2). lia. }
  assert (Hsq : 2 ^ (k - 1) <= Z.sqrt m).
  { apply Z.sqrt_le_square; [lia | apply Z.pow_nonneg; lia |].
    rewrite <- Z.pow_add_r by lia.
    apply Z.le_trans with (2 ^ (Zdigits2 m - 1)); [| exact Hlo].
    apply Z.pow_le_mono_r; lia. }
  apply Zdigits2_lower in Hsq; lia.
Qed.

Lemma SFsqrt_valid (x : spec_float) :
  valid_binary prec emax (SFsqrt prec emax x) = true.
Proof.
  destruct x as [s | [|] | | [|] m e]; try reflexivity.
  unfold SFsqrt, SFsqrt_core_binary.
  set (d := Zdigits2 (Zpos m)).
  set (e' := Z.min (fexp prec emax (Z.div2 (d + e + 1))) (Z.div2 e)).
  set (m' := match e - 2 * e' with
             | Zpos p => Z.shiftl (Zpos m) (e - 2 * e')
             | 0 => Zpos m
             | Zneg _ => 0
             end).
  pose proof (Z.sqrtrem_sqrt m') as Hq.
  destruct (Z.sqrtrem m') as [q r]. cbn [fst] in Hq. subst q.
  assert (Hs : 0 <= e - 2 * e').
  { unfold e'. rewrite (Z.div2_div e).
    pose proof (Z.div_mod e 2). pose proof (Z.mod_pos_bound e 2). lia. }
  assert (Hm' : m' = Zpos m * 2 ^ (e - 2 * e')).
  { unfold m'. destruct (e - 2 * e') as [| p | p] eqn:Hp; try lia.
    rewrite Z.shiftl_mul_pow2 by lia. reflexivity. }
  assert (Hpos : 0 < m').
  { rewrite Hm'. apply Z.mul_pos_pos; [lia | apply Z.pow_pos_nonneg; lia]. }
  apply binary_round_aux_valid; [apply Z.sqrt_nonneg |].
  assert (Hdm : Zdigits2 m' = d + (e - 2 * e')).
  { rewrite Hm', !Zdigits2_log2 by lia. unfold d.
    rewrite Zdigits2_log2 by lia.
    rewrite Z.log2_mul_pow2 by lia. lia. }
  pose proof (@sqrt_digits m' Hpos) as Hsd. rewrite Hdm in Hsd.
  apply Z.le_trans with (fexp prec emax (Z.div2 (d + e + 1)));
    [unfold e'; lia |].
  apply fexp_mono. rewrite Z.div2_div.
  replace (d + (e - 2 * e') + 1) with ((d + e + 1) + (- e') * 2) in Hsd by lia.
  rewrite Z.div_add in Hsd by lia. lia.
Qed.

End Rounding.

(** ** Single precision values and their promotion to double *)

Lemma valid_shape (s : bool) (m : positive) (e : Z) :
  Float32.valid (S754_finite s m e) = true ->
  Zpos (digits2_pos m) <= 24 /\ -149 <= e <= 104
  /\ (Zpos (digits2_pos m) = 24 \/ e = -149).
Proof.
  unfold Float32.valid, valid_binary, bounded, canonical_mantissa, fexp, emin,
    Float32.prec, Float32.emax.
  intros H. apply andb_true_iff in H. destruct H as [Hc Hb].
  apply Z.eqb_eq in Hc. apply Z.leb_le in Hb. lia.
Qed.

Lemma iter_xO_digits (k m : positive) :
  digits2_pos (Pos.iter xO m k) = (digits2_pos m + k)%positive.
Proof.
  induction k as [| k IH] using Pos.peano_ind.
  - simpl. lia.
  - rewrite Pos.iter_succ. simpl. rewrite IH. lia.
Qed.

Lemma iter_xO_value (k m : positive) :
  Zpos (Pos.iter xO m k) = Zpos m * 2 ^ Zpos k.
Proof.
  induction k as [| k IH] using Pos.peano_ind.
  - simpl. lia.
  - rewrite Pos.iter_succ, Pos2Z.inj_xO, IH, Pos2Z.inj_succ.
    rewrite Z.pow_succ_r by lia. lia.
Qed.

(** Promotion is exact: the significand is shifted up to 53 bits and the
    exponent lowered by as much. *)
Lemma to_double_finite (s : bool) (m : positive) (e : Z) :
  Float32.valid (S754_finite s m e) = true ->
  exists k : positive,
    Zpos k = 53 - Zpos (digits2_pos m)
    /\ Float32.to_double (S754_finite s m e)
       = S754_finite s (Pos.iter xO m k) (e - Zpos k).
Proof.
  intros Hv. destruct (@valid_shape _ _ _ Hv) as (Hd & He & _).
  pose proof (Pos2Z.is_pos (digits2_pos m)) as Hdpos.
  exists (Z.to_pos (53 - Zpos (digits2_pos m))).
  assert (Hk : Zpos (Z.to_pos (53 - Zpos (digits2_pos m)))
               = 53 - Zpos (digits2_pos m)) by (apply Z2Pos.id; lia).
  split; [exact Hk |].
  set (k := Z.to_pos (53 - Zpos (digits2_pos m))) in *.
  unfold Float32.to_double, binary_round, shl_align.
  assert (Hf : fexp 53 1024 (Zpos (digits2_pos m) + e) = e - Zpos k)
    by (unfold fexp, emin; lia).
  rewrite Hf. replace (e - Zpos k - e) with (Zneg k) by lia.
  unfold binary_round_aux, shr_fexp. cbn [Zdigits2].
  rewrite iter_xO_digits.
  assert (Hz : fexp 53 1024 (Zpos (digits2_pos m + k) + (e - Zpos k))
               - (e - Zpos k) = 0)
    by (unfold fexp, emin; lia).
  rewrite Hz. cbn [shr shr_record_of_loc shr_m loc_of_shr_record
                   round_nearest_even Zdigits2].
  rewrite iter_xO_digits, Hz. cbn [shr shr_record_of_loc shr_m].
  destruct (Z.leb_spec (e - Zpos k) (1024 - 53)); [reflexivity | lia].
Qed.

Lemma SFltb_positive (m1 : positive) (e1 : Z) (m2 : positive) (e2 : Z) :
  SFltb (S754_finite false m1 e1) (S754_finite false m2 e2) = true
  <-> e1 < e2 \/ (e1 = e2 /\ Zpos m1 < Zpos m2).
Proof.
  unfold SFltb, SFcompare.
  change (Pos.compare_cont Eq m1 m2) with (Pos.compare m1 m2).
  destruct (Z.compare_spec e1 e2) as [He | He | He].
  - destruct (Pos.compare_spec m1 m2) as [Hm | Hm | Hm];
      split; intros H; try discriminate; try reflexivity; lia.
  - split; [intros _; left; exact He | reflexivity].
  - split; [discriminate | lia].
Qed.

Lemma pow2_pos (p : positive) : Zpos (2 ^ p) = 2 ^ Zpos p.
Proof. apply Pos2Z.inj_pow. Qed.

Lemma positive_order (m : positive) (e : Z) (L : positive) (qn : Z)
    (qd : positive) :
  Float32.valid (S754_finite false m e) = true ->
  same_cut L qn qd ->
  (Float32.gt_lit (S754_finite false m e) (S754_finite false L (-49)) = true
   <-> Float32.above (S754_finite false m e) (qn # qd))
  /\ (Float32.lt_lit (S754_finite false m e) (S754_finite false L (-49)) = true
      <-> Float32.below (S754_finite false m e) (qn # qd)).
Proof.
  intros Hv [Hq Hcut].
  destruct (valid_shape _ _ _ Hv) as (Hd & He & Hshape).
  destruct (to_double_finite _ _ _ Hv) as (k & Hk & Hdbl).
  unfold Float32.gt_lit, Float32.lt_lit. rewrite Hdbl, !SFltb_positive.
  rewrite iter_xO_value.
  pose proof (@Zdigits2_bounds (Zpos m) eq_refl) as Hm. cbn [Zdigits2] in Hm.
  assert (Hlo : 2 ^ (Zpos (digits2_pos m) - 1) <= 2 ^ 23)
    by (apply Z.pow_le_mono_r; lia).
  assert (Hhi : 2 ^ Zpos (digits2_pos m) <= 2 ^ 24)
    by (apply Z.pow_le_mono_r; lia).
  unfold Float32.above, Float32.below, Float32.value, Qlt.
  cbn [cond_Zopp Qnum Qden].
  pose proof (Pos2Z.is_pos qd) as Hqd.
  destruct Hshape as [Hd24 | He149].
  - (* a normal number: 24 significant bits *)
    rewrite Hd24 in Hm, Hk. cbn in Hk. injection Hk as ->.
    destruct e as [| p | p]; cbn [Qnum Qden].
    + split; split; intros H; nia.
    + assert (Hp1 : 1 <= 2 ^ Zpos p)
        by (pose proof (Z.pow_pos_nonneg 2 (Zpos p)); lia).
      assert (Hbig : 2 ^ 23 <= Zpos m * 2 ^ Zpos p) by nia.
      set (y := Zpos m * 2 ^ Zpos p) in *.
      split; split; intros H; nia.
    + rewrite pow2_pos.
      destruct (Z.lt_trichotomy (Zpos p) 20) as [Hp | [Hp | Hp]].
      * assert (Hp19 : 2 ^ Zpos p <= 2 ^ 19) by (apply Z.pow_le_mono_r; lia).
        assert (Hp0 : 0 < 2 ^ Zpos p) by (apply Z.pow_pos_nonneg; lia).
        assert (Hx : qn * 2 ^ Zpos p < 2 ^ 23 * Zpos qd) by nia.
        assert (Hy : 2 ^ 23 * Zpos qd <= Zpos m * Zpos qd) by nia.
        split; split; intros H; lia.
      * rewrite Hp. destruct (Hcut (Zpos m)) as [Ha Hb].
        replace (Z.neg p) with (-20) by lia.
        split; split; intros H.
        -- apply Ha. lia.
        -- right. split; [reflexivity | apply Ha; exact H].
        -- apply Hb. lia.
        -- right. split; [reflexivity | apply Hb; exact H].
      * assert (Hp21 : 2 ^ 21 <= 2 ^ Zpos p) by (apply Z.pow_le_mono_r; lia).
        assert (Hx : 2 ^ 24 * Zpos qd <= qn * 2 ^ Zpos p) by nia.
        assert (Hy : Zpos m * Zpos qd < 2 ^ 24 * Zpos qd) by nia.
        split; split; intros H; lia.
  - (* the smallest exponent *)
    subst e. cbn [Qnum Qden]. rewrite pow2_pos.
    assert (Hx : 2 ^ 24 * Zpos qd <= qn * 2 ^ 149) by nia.
    assert (Hy : Zpos m * Zpos qd < 2 ^ 24 * Zpos qd) by nia.
    split; split; intros H; lia.
Qed.

Lemma to_double_negative (m : positive) (e : Z) :
  Float32.valid (S754_finite true m e) = true ->
  exists m' e', Float32.to_double (S754_finite true m e)
                = S754_finite true m' e'.
Proof.
  intros Hv. destruct (@to_double_finite true m e Hv) as (k & _ & H).
  exists (Pos.iter xO m k), (e - Zpos k). exact H.
Qed.

(** Comparing a single precision value with a double literal gives the
    order of the exact values whenever the literal cuts like the rational
    threshold. *)
Lemma order_exact (x : Float32.float) (L : positive) (qn : Z) (qd : positive) :
  Float32.valid x = true ->
  same_cut L qn qd ->
  (Float32.gt_lit x (S754_finite false L (-49)) = true
   <-> Float32.above x (qn # qd))
  /\ (Float32.lt_lit x (S754_finite false L (-49)) = true
      <-> Float32.below x (qn # qd)).
Proof.
  intros Hv Hcut. pose proof Hcut as [Hq _].
  pose proof (Pos2Z.is_pos qd) as Hqd.
  destruct x as [s | s | | [|] m e].
  - unfold Float32.above, Float32.below, Float32.value, Qlt.
    cbn. split; split; intros H; try discriminate; try reflexivity; try lia.
  - unfold Float32.above, Float32.below.
    destruct s; cbn; split; split; intros H;
      try discriminate; try reflexivity.
  - cbn. split; split; intros H; try discriminate; contradiction.
  - destruct (to_double_negative _ _ Hv) as (m' & e' & Hd).
    unfold Float32.gt_lit, Float32.lt_lit. rewrite Hd.
    unfold Float32.above, Float32.below, Float32.value, Qlt.
    pose proof (Pos2Z.is_pos m) as Hm.
    destruct e as [| p | p]; cbn [cond_Zopp Qnum Qden Z.opp SFltb SFcompare].
    + split; split; intros H; try discriminate; try reflexivity; nia.
    + assert (Hp : 0 < 2 ^ Zpos p) by (apply Z.pow_pos_nonneg; lia).
      split; split; intros H; try discriminate; try reflexivity; nia.
    + pose proof (Pos2Z.is_pos (2 ^ p)) as Hp.
      split; split; intros H; try discriminate; try reflexivity; nia.
  - apply positive_order; assumption.
Qed.

(** The encodings of the literals are the doubles nearest to the decimal
    numbers written in the sketch: each is a canonical binary64 value,
    what correctly rounded division of the two integers gives, and within
    half a unit in the last place of the decimal value. *)
Lemma literals_nearest :
  Float32.lit_11_0
    = SFdiv 53 1024 (binary_normalize 53 1024 110 0 false)
                    (binary_normalize 53 1024 10 0 false)
  /\ Float32.lit_9_9
     = SFdiv 53 1024 (binary_normalize 53 1024 99 0 false)
                     (binary_normalize 53 1024 10 0 false)
  /\ Float32.lit_9_7
     = SFdiv 53 1024 (binary_normalize 53 1024 97 0 false)
                     (binary_normalize 53 1024 10 0 false)
  /\ valid_binary 53 1024 Float32.lit_11_0 = true
  /\ valid_binary 53 1024 Float32.lit_9_9 = true
  /\ valid_binary 53 1024 Float32.lit_9_7 = true
  /\ 6192449487634432 = 11 * 2 ^ 49
  /\ 2 * Z.abs (5573204538870989 * 10 - 99 * 2 ^ 49) <= 10
  /\ 2 * Z.abs (5460614548186726 * 10 - 97 * 2 ^ 49) <= 10.
Proof.
  repeat split; try (vm_compute; reflexivity); vm_compute; discriminate.
Qed.

Lemma cut_11_0 : same_cut 6192449487634432 11 1.
Proof. split; [lia |]. intros x. split; split; lia. Qed.

Lemma cut_9_9 : same_cut 5573204538870989 99 10.
Proof. split; [lia |]. intros x. split; split; lia. Qed.

Lemma cut_9_7 : same_cut 5460614548186726 97 10.
Proof. split; [lia |]. intros x. split; split; lia. Qed.

(** The magnitude is a sound single precision value for every sample,
    finite or not. *)
Lemma totalAccel_valid (ax ay az : Float32.float) :
  Float32.valid (totalAccel ax ay az) = true.
Proof.
  unfold totalAccel, Float32.sqrt, Float32.valid.
  apply SFsqrt_valid. reflexivity.
Qed.

(** The three-way test on a sound magnitude, read over exact values. *)
Lemma classify_exact (m : Float32.float) :
  Float32.valid m = true ->
  (classify m = "Active"%string <-> Float32.above m 11)
  /\ (classify m = "Resting"%string
      <-> Float32.above m (97 # 10) /\ Float32.below m (99 # 10))
  /\ (classify m = "Moving"%string
      <-> ~ Float32.above m 11
          /\ ~ (Float32.above m (97 # 10) /\ Float32.below m (99 # 10))).
Proof.
  intros Hv.
  destruct (order_exact m Hv cut_11_0) as [Ha _].
  destruct (order_exact m Hv cut_9_7) as [Hlo _].
  destruct (order_exact m Hv cut_9_9) as [_ Hhi].
  change (S754_finite false 6192449487634432 (-49)) with Float32.lit_11_0 in Ha.
  change (S754_finite false 5460614548186726 (-49)) with Float32.lit_9_7 in Hlo.
  change (S754_finite false 5573204538870989 (-49)) with Float32.lit_9_9 in Hhi.
  assert (Hexcl : Float32.above m 11 -> Float32.below m (99 # 10) -> False).
  { unfold Float32.above, Float32.below.
    destruct m as [s | s | | s mm e]; try congruence; try contradiction;
      intros H1 H2; pose proof (Qlt_trans _ _ _ H1 H2) as H3;
      revert H3; unfold Qlt; cbn; lia. }
  unfold classify.
  destruct (Float32.gt_lit m Float32.lit_11_0) eqn:Ga.
  - assert (Hab : Float32.above m 11) by (apply Ha; reflexivity).
    split; [tauto |]. split.
    + split; [discriminate | intros [_ Hb]; exfalso; exact (Hexcl Hab Hb)].
    + split; [discriminate | tauto].
  - assert (Hnab : ~ Float32.above m 11)
      by (intros H; apply Ha in H; discriminate).
    destruct (Float32.lt_lit m Float32.lit_9_9) eqn:Gh;
      destruct (Float32.gt_lit m Float32.lit_9_7) eqn:Gl; cbn [andb].
    + assert (Float32.above m (97 # 10)) by (apply Hlo; reflexivity).
      assert (Float32.below m (99 # 10)) by (apply Hhi; reflexivity).
      split; [split; [discriminate | tauto] |].
      split; [tauto |]. split; [discriminate | tauto].
    + assert (~ Float32.above m (97 # 10))
        by (intros H; apply Hlo in H; discriminate).
      split; [split; [discriminate | tauto] |].
      split; [split; [discriminate | tauto] | tauto].
    + assert (~ Float32.below m (99 # 10))
        by (intros H; apply Hhi in H; discriminate).
      split; [split; [discriminate | tauto] |].
      split; [split; [discriminate | tauto] | tauto].
    + assert (~ Float32.below m (99 # 10))
        by (intros H; apply Hhi in H; discriminate).
      split; [split; [discriminate | tauto] |].
      split; [split; [discriminate | tauto] | tauto].
Qed.

(** Neither 9.9 nor 9.7 is a [float]: the nearest ones fall short of them
    by less than one part in ten million, so the one next to 9.9 is still
    inside the band and the one next to 9.7 still outside; 11 is exact and
    not above itself. *)
Lemma band_edges :
  classify nearest_9_9 = "Resting"%string
  /\ classify nearest_9_7 = "Moving"%string
  /\ classify eleven = "Moving"%string
  /\ (Float32.value nearest_9_9 < 99 # 10)%Q
  /\ (99 # 10 < Float32.value (S754_finite false 10380903 (-20)))%Q
  /\ (Float32.value nearest_9_7 < 97 # 10)%Q
  /\ (97 # 10 < Float32.value (S754_finite false 10171188 (-20)))%Q
  /\ (Float32.value eleven == 11)%Q.
Proof.
  repeat split; reflexivity.
Qed.

(** ** Activity *)

(** C1: for every acceleration sample, with [m] the magnitude the sketch
    computes in single precision, the label after the tick is "Active"
    exactly when [m] exceeds 11, "Resting" exactly when [m] lies strictly
    between 9.7 and 9.9, and "Moving" in every other case (a NaN
    included); in particular a finite [m] anywhere in [9.9, 11], or at
    most 9.7, gives "Moving".  The comparisons are between exact values:
    the decimal thresholds, not their double roundings. *)
Theorem activity_thresholds (s : State) (i : TickInput) :
  let m := totalAccel (accel_x i) (accel_y i) (accel_z i) in
  (activityStatus (loop s i) = "Active"%string <-> Float32.above m 11)
  /\ (activityStatus (loop s i) = "Resting"%string
      <-> Float32.above m (97 # 10) /\ Float32.below m (99 # 10))
  /\ (activityStatus (loop s i) = "Moving"%string
      <-> ~ Float32.above m 11
          /\ ~ (Float32.above m (97 # 10) /\ Float32.below m (99 # 10)))
  /\ (is_finite m = true ->
      (99 # 10 <= Float32.value m <= 11)%Q
      \/ (Float32.value m <= 97 # 10)%Q ->
      activityStatus (loop s i) = "Moving"%string).
Proof.
  intros m. rewrite loop_activityStatus. fold m.
  destruct (classify_exact m (totalAccel_valid _ _ _)) as (Ha & Hr & Hm).
  split; [exact Ha |]. split; [exact Hr |]. split; [exact Hm |].
  intros Hfin Hrange. apply Hm.
  assert (Hab : forall q : Q, Float32.above m q <-> (q < Float32.value m)%Q)
    by (intros q; destruct m; try discriminate; reflexivity).
  assert (Hbe : forall q : Q, Float32.below m q <-> (Float32.value m < q)%Q)
    by (intros q; destruct m; try discriminate; reflexivity).
  rewrite !Hab, !Hbe.
  destruct Hrange as [[Hlo Hhi] | Hlow].
  - split.
    + apply Qle_not_lt. exact Hhi.
    + intros [_ H]. revert H. apply Qle_not_lt. exact Hlo.
  - split.
    + apply Qle_not_lt. apply Qle_trans with (97 # 10); [exact Hlow |].
      unfold Qle. cbn. lia.
    + intros [H _]. revert H. apply Qle_not_lt. exact Hlow.
Qed.

(** 12 m/s^2 is above 11 and labelled Active, 9.8 lies in the band, and
    exactly 11 is labelled Moving. *)
Lemma activity_thresholds_witness :
  Float32.above (totalAccel (S754_zero false) (S754_zero false) twelve) 11
  /\ (Float32.above (totalAccel (S754_zero false) (S754_zero false) gravity)
                    (97 # 10)
      /\ Float32.below (totalAccel (S754_zero false) (S754_zero false) gravity)
                       (99 # 10))
  /\ activityStatus (loop powered_on (axis_tick eleven)) = "Moving"%string.
Proof.
  split; [| split].
  - apply (proj1 (activity_thresholds powered_on (axis_tick twelve))).
    reflexivity.
  - apply (proj1 (proj2 (activity_thresholds powered_on (axis_tick gravity)))).
    reflexivity.
  - apply (proj2 (proj2 (proj2
             (activity_thresholds powered_on (axis_tick eleven))))).
    + reflexivity.
    + left. vm_compute. split; discriminate.
Defined.

(** * Further properties of the sketch *)

(** ** Start-up *)

(** X1: [setup] hands a state to [loop] exactly when both drivers start,
    and that state is always the same one: the image [begin] left in the
    buffer is cleared before the banner is drawn, so nothing of it reaches
    the panel or the globals. *)
Theorem setup_outcome (b : BootInput) :
  (setup b = None <-> oled_ok b = false \/ mpu_ok b = false)
  /\ (forall s : State,
        setup b = Some s ->
        s = powered_on
        /\ frame s = banner_layout
        /\ SSD1306.buffer (display s) = banner_layout
        /\ simulatedBPM s = 0 /\ lastBPMUpdate s = 0
        /\ activityStatus s = "Idle"%string /\ fingerDetected s = false)
  /\ (oled_ok b = true -> mpu_ok b = true -> setup b = Some powered_on).
Proof.
  unfold setup. destruct (oled_ok b), (mpu_ok b); cbn [negb].
  - split; [split; [discriminate | intros [H | H]; discriminate] |].
    split; [| reflexivity].
    intros s H. injection H as <-. repeat split; reflexivity.
  - split; [split; [right; reflexivity | reflexivity] |].
    split; [discriminate | discriminate].
  - split; [split; [left; reflexivity | reflexivity] |].
    split; [discriminate | discriminate].
  - split; [split; [left; reflexivity | reflexivity] |].
    split; [discriminate | discriminate].
Qed.

Lemma setup_outcome_witness :
  setup (mkBoot true true
           [SSD1306.Glyph 40 20 "A" 2 1; SSD1306.Line 0 0 127 63 1])
  = Some powered_on
  /\ frame powered_on = banner_layout.
Proof.
  split; [| reflexivity].
  apply (proj2 (proj2 (setup_outcome
           (mkBoot true true
              [SSD1306.Glyph 40 20 "A" 2 1; SSD1306.Line 0 0 127 63 1]))));
    reflexivity.
Defined.

(** ** The heart rate over several ticks *)

Lemma run_snoc (s : State) (inputs : list TickInput) (i : TickInput) :
  run s (inputs ++ [i]) = loop (run s inputs) i.
Proof. unfold run. rewrite fold_left_app. reflexivity. Qed.

Lemma run_reachable (inputs : list TickInput) (s : State) :
  reachable s -> reachable (run s inputs).
Proof.
  intros Hr. induction inputs as [| i rest IH] using rev_ind.
  - exact Hr.
  - rewrite run_snoc. apply reach_loop. exact IH.
Qed.

(** A tick that finds no more than 2000 ms elapsed keeps the stamp, and
    keeps the value unless the finger is off. *)
Lemma loop_within (s : State) (i : TickInput) :
  elapsed i s <= 2000 ->
  lastBPMUpdate (loop s i) = lastBPMUpdate s
  /\ (simulatedBPM (loop s i) = simulatedBPM s
      \/ simulatedBPM (loop s i) = 0).
Proof.
  intros He. destruct (finger_pin i =? HIGH) eqn:Hp.
  - assert (Hgt : (elapsed i s >? 2000) = false)
      by (destruct (Z.gtb_spec (elapsed i s) 2000); [lia | reflexivity]).
    destruct (loop_retain s i Hp Hgt) as [Hv Ht].
    split; [exact Ht | left; exact Hv].
  - destruct (loop_absent s i Hp) as [Hv Ht].
    split; [exact Ht | right; exact Hv].
Qed.

Lemma run_within (inputs : list TickInput) (s : State) :
  Forall (fun i => ulong_sub (millis_check i) (lastBPMUpdate s) <= 2000)
         inputs ->
  lastBPMUpdate (run s inputs) = lastBPMUpdate s
  /\ (simulatedBPM (run s inputs) = simulatedBPM s
      \/ simulatedBPM (run s inputs) = 0)
  /\ (Forall (fun i => finger_pin i = HIGH) inputs ->
      simulatedBPM (run s inputs) = simulatedBPM s).
Proof.
  induction inputs as [| i rest IH] using rev_ind; intros Hall.
  - split; [reflexivity |]. split; [left; reflexivity | reflexivity].
  - apply Forall_app in Hall. destruct Hall as [Hrest Hi].
    inversion Hi as [| i' l' Hlast _]; subst.
    destruct (IH Hrest) as (Ht & Hv & Hworn).
    rewrite run_snoc.
    assert (He : elapsed i (run s rest) <= 2000)
      by (unfold elapsed; rewrite Ht; exact Hlast).
    destruct (loop_within (run s rest) i He) as [Ht' Hv'].
    split; [rewrite Ht'; exact Ht |]. split.
    + destruct Hv' as [Hv' | Hv']; [rewrite Hv'; exact Hv | right; exact Hv'].
    + intros Hpins. apply Forall_app in Hpins. destruct Hpins as [Hp Hpi].
      inversion Hpi as [| i' l' Hhigh _]; subst.
      assert (Hgt : (elapsed i (run s rest) >? 2000) = false)
        by (destruct (Z.gtb_spec (elapsed i (run s rest)) 2000);
            [lia | reflexivity]).
      apply Z.eqb_eq in Hhigh.
      destruct (loop_retain (run s rest) i Hhigh Hgt) as [Hv'' _].
      rewrite Hv''. apply Hworn. exact Hp.
Qed.

(** X2: the stamp starts at 0, so no heart rate is produced while the
    clock reads 2000 ms or less: after any ticks in that window the value
    is still 0 and the stamp still 0, finger or no finger, and a tick with
    the finger on shows the data layout with a reading of 0. *)
Theorem no_reading_before_2000 (inputs : list TickInput) (i : TickInput) :
  Forall (fun j => 0 <= millis_check j <= 2000) inputs ->
  0 <= millis_check i <= 2000 ->
  finger_pin i = HIGH ->
  simulatedBPM (run powered_on inputs) = 0
  /\ lastBPMUpdate (run powered_on inputs) = 0
  /\ simulatedBPM (loop (run powered_on inputs) i) = 0
  /\ frame (loop (run powered_on inputs) i)
     = header_layout
       ++ data_layout 0 (activityStatus (loop (run powered_on inputs) i))
                      (ecg_adc i).
Proof.
  intros Hall Hi Hp.
  assert (Hwin : forall j, 0 <= millis_check j <= 2000 ->
                           ulong_sub (millis_check j)
                                     (lastBPMUpdate powered_on) <= 2000).
  { intros j Hj. change (lastBPMUpdate powered_on) with 0.
    rewrite ulong_sub_exact; lia. }
  assert (Hall' : Forall (fun j => ulong_sub (millis_check j)
                                     (lastBPMUpdate powered_on) <= 2000)
                         inputs).
  { eapply Forall_impl; [| exact Hall]. exact Hwin. }
  destruct (run_within powered_on Hall') as (Ht & Hv & _).
  change (lastBPMUpdate powered_on) with 0 in Ht.
  change (simulatedBPM powered_on) with 0 in Hv.
  assert (Hv0 : simulatedBPM (run powered_on inputs) = 0) by tauto.
  split; [exact Hv0 |]. split; [exact Ht |].
  assert (He : (elapsed i (run powered_on inputs) >? 2000) = false).
  { unfold elapsed. rewrite Ht.
    destruct (Z.gtb_spec (ulong_sub (millis_check i) 0) 2000);
      [| reflexivity].
    rewrite ulong_sub_exact in *; lia. }
  apply Z.eqb_eq in Hp.
  destruct (loop_retain (run powered_on inputs) i Hp He) as [Hv' _].
  rewrite Hv0 in Hv'. split; [exact Hv' |].
  assert (Hr : reachable (run powered_on inputs))
    by (apply run_reachable; exact powered_on_reachable).
  destruct (loop_frame (run powered_on inputs) i (reachable_text_ready Hr))
    as [Hf _].
  rewrite Hf, loop_fingerDetected, Hp, Hv'. reflexivity.
Qed.

Lemma no_reading_before_2000_witness :
  simulatedBPM
    (loop (run powered_on [still_tick LOW 1100; still_tick HIGH 1300])
          (still_tick HIGH 2000)) = 0
  /\ frame (loop (run powered_on [still_tick LOW 1100; still_tick HIGH 1300])
                 (still_tick HIGH 2000))
     = header_layout ++ data_layout 0 "Resting" 512.
Proof.
  assert (Hall : Forall (fun j => 0 <= millis_check j <= 2000)
                        [still_tick LOW 1100; still_tick HIGH 1300])
    by (repeat constructor; cbn; lia).
  assert (Hi : 0 <= millis_check (still_tick HIGH 2000) <= 2000)
    by (cbn; lia).
  destruct (no_reading_before_2000 (still_tick HIGH 2000) Hall Hi eq_refl)
    as (_ & _ & Hv & Hf).
  split; [exact Hv |]. rewrite Hf. reflexivity.
Defined.

(** X4: while the finger stays on and the clock is no more than 2000 ms
    past the stored stamp -- exactly 2000 included -- a run of ticks of
    any length leaves both the value and the stamp as they were. *)
Theorem worn_run_retains (s : State) (inputs : list TickInput) :
  Forall (fun i => finger_pin i = HIGH) inputs ->
  Forall (fun i => ulong_sub (millis_check i) (lastBPMUpdate s) <= 2000)
         inputs ->
  simulatedBPM (run s inputs) = simulatedBPM s
  /\ lastBPMUpdate (run s inputs) = lastBPMUpdate s.
Proof.
  intros Hp Hall. destruct (run_within s Hall) as (Ht & _ & Hv).
  split; [apply Hv; exact Hp | exact Ht].
Qed.

Lemma worn_run_retains_witness :
  simulatedBPM
    (run (mkState 72 3000 "Moving" true (display powered_on))
         [still_tick HIGH 3100; still_tick HIGH 4100; still_tick HIGH 5000])
  = 72
  /\ lastBPMUpdate
       (run (mkState 72 3000 "Moving" true (display powered_on))
            [still_tick HIGH 3100; still_tick HIGH 4100; still_tick HIGH 5000])
     = 3000.
Proof.
  apply (worn_run_retains
           (mkState 72 3000 "Moving" true (display powered_on))).
  - repeat constructor.
  - repeat constructor; discriminate.
Defined.

(** X3: the elapsed time survives both the sign of the stored stamp and
    the wrap of the 32-bit clock: if a tick regenerates with the clock at
    [t] and a later tick reads the clock [d] ms further on (modulo 2^32),
    that tick measures exactly [d]; with the finger on it regenerates again
    when [d] exceeds 2000 and keeps value and stamp otherwise. *)
Theorem elapsed_across_wrap (s : State) (i j : TickInput) (d : Z) :
  fingerDetected (loop s i) = true ->
  elapsed i s > 2000 ->
  0 <= d < 2 ^ 32 ->
  millis_check j = (millis_stamp i + d) mod 2 ^ 32 ->
  elapsed j (loop s i) = d
  /\ (finger_pin j = HIGH -> d > 2000 ->
      simulatedBPM (loop (loop s i) j) = random 68 85 (entropy j)
      /\ lastBPMUpdate (loop (loop s i) j) = to_long (millis_stamp j))
  /\ (finger_pin j = HIGH -> d <= 2000 ->
      simulatedBPM (loop (loop s i) j) = simulatedBPM (loop s i)
      /\ lastBPMUpdate (loop (loop s i) j) = lastBPMUpdate (loop s i)).
Proof.
  rewrite loop_fingerDetected. intros Hp He Hd Hj.
  assert (Hgt : (elapsed i s >? 2000) = true) by (apply Z.gtb_lt; lia).
  destruct (loop_regenerate s i Hp Hgt) as [_ Ht].
  assert (Hel : elapsed j (loop s i) = d).
  { unfold elapsed. rewrite Ht, ulong_sub_to_long, Hj.
    rewrite Zminus_mod_idemp_l.
    replace (millis_stamp i + d - millis_stamp i) with d by lia.
    apply Z.mod_small. exact Hd. }
  split; [exact Hel |]. split; intros Hpj Hcmp; apply Z.eqb_eq in Hpj.
  - apply loop_regenerate; [exact Hpj |].
    rewrite Hel. apply Z.gtb_lt. lia.
  - apply loop_retain; [exact Hpj |].
    rewrite Hel. destruct (Z.gtb_spec d 2000); [lia | reflexivity].
Qed.

(** Stamped 296 ms before the clock wraps, read 1000 ms later at 704: one
    second has passed, not minus fifty days, and the value is kept. *)
Lemma elapsed_across_wrap_witness :
  elapsed (still_tick HIGH 704) (loop powered_on (still_tick HIGH 4294967000))
  = 1000
  /\ lastBPMUpdate (loop powered_on (still_tick HIGH 4294967000)) = -296
  /\ simulatedBPM (loop (loop powered_on (still_tick HIGH 4294967000))
                        (still_tick HIGH 704)) = 75.
Proof.
  destruct (@elapsed_across_wrap powered_on (still_tick HIGH 4294967000)
              (still_tick HIGH 704) 1000 eq_refl eq_refl)
    as (Hel & _ & Hkeep); [lia | reflexivity |].
  split; [exact Hel |]. split; [reflexivity |].
  rewrite (proj1 (Hkeep eq_refl ltac:(lia))). reflexivity.
Defined.

(** ** What a tick carries over *)

Lemma update_display_forgets (i : TickInput) (bpm last : Z) (st : string)
    (fd : bool) (d1 d2 : SSD1306.t) :
  text_ready d1 -> text_ready d2 ->
  update_display i (mkState bpm last st fd d1)
  = update_display i (mkState bpm last st fd d2).
Proof.
  intros [Hs1 Hc1] [Hs2 Hc2].
  destruct d1 as [x1 y1 ts1 tc1 b1 scr1], d2 as [x2 y2 ts2 tc2 b2 scr2].
  cbn [SSD1306.textsize SSD1306.textcolor] in *. subst.
  unfold update_display, draw_header, draw_data, draw_warning,
    SSD1306.println, SSD1306.print_int.
  cbn [display fingerDetected simulatedBPM activityStatus lastBPMUpdate].
  destruct fd;
    repeat (rewrite print_frame;
            cbn [SSD1306.setCursor SSD1306.setTextSize SSD1306.clearDisplay
                 SSD1306.drawLine SSD1306.display SSD1306.buffer
                 SSD1306.textsize SSD1306.textcolor SSD1306.cursor_x
                 SSD1306.cursor_y SSD1306.screen]);
    reflexivity.
Qed.

(** X5: the value and the stamp are all that one tick passes to the next.
    From any two states of the running sketch that agree on them, the same
    inputs lead to the same state in every component, frame and display
    cursor included; the previous flag, label and screen leave no trace. *)
Theorem loop_memory (s1 s2 : State) (i : TickInput) :
  reachable s1 -> reachable s2 ->
  simulatedBPM s1 = simulatedBPM s2 ->
  lastBPMUpdate s1 = lastBPMUpdate s2 ->
  loop s1 i = loop s2 i.
Proof.
  intros Hr1 Hr2 Hv Ht.
  apply reachable_text_ready in Hr1. apply reachable_text_ready in Hr2.
  destruct s1 as [v1 t1 a1 f1 d1], s2 as [v2 t2 a2 f2 d2].
  cbn [simulatedBPM lastBPMUpdate display] in *. subst v2 t2.
  unfold loop, read_motion, simulate_heart_rate, check_finger.
  cbn [simulatedBPM lastBPMUpdate activityStatus fingerDetected display].
  destruct (finger_pin i =? HIGH);
    cbn [simulatedBPM lastBPMUpdate activityStatus fingerDetected display];
    [destruct (ulong_sub (millis_check i) t1 >? 2000) |];
    cbn [simulatedBPM lastBPMUpdate activityStatus fingerDetected display];
    apply update_display_forgets; assumption.
Qed.

Lemma loop_memory_witness :
  loop (loop powered_on (still_tick LOW 1200)) (still_tick HIGH 2500)
  = loop (loop powered_on (axis_tick twelve)) (still_tick HIGH 2500).
Proof.
  apply loop_memory.
  - apply reach_loop. exact powered_on_reachable.
  - apply reach_loop. exact powered_on_reachable.
  - vm_compute. reflexivity.
  - vm_compute. reflexivity.
Defined.

(** ** Invariants of the running sketch *)

(** X10: at every tick boundary the panel shows exactly what the buffer
    holds, the text size is 1 and the colour white (only [setup] ever sets
    the colour), the stamp fits a signed 32-bit [long], and the label is
    the initial "Idle" only as long as no tick has run. *)
Theorem tick_boundary_invariant (s : State) :
  reachable s ->
  SSD1306.buffer (display s) = frame s
  /\ text_ready (display s)
  /\ - 2 ^ 31 <= lastBPMUpdate s < 2 ^ 31
  /\ (activityStatus s = "Idle"%string -> s = powered_on).
Proof.
  induction 1 as [b s Hb | s i Hr IH].
  - destruct (setup_frame b Hb) as (_ & Hready & _ & Ht & _).
    assert (Hs : s = powered_on).
    { revert Hb. unfold setup.
      destruct (oled_ok b); [| discriminate].
      destruct (mpu_ok b); [| discriminate].
      cbn [negb]. intros H. injection H as <-. reflexivity. }
    split; [subst s; reflexivity |]. split; [exact Hready |].
    split; [rewrite Ht; lia | intros _; exact Hs].
  - destruct IH as (_ & Hready & Hrange & _).
    split; [reflexivity |].
    split; [apply (loop_frame s i Hready) |]. split.
    + destruct (finger_pin i =? HIGH) eqn:Hp.
      * destruct (elapsed i s >? 2000) eqn:He.
        -- destruct (loop_regenerate s i Hp He) as [_ Ht]. rewrite Ht.
           unfold to_long.
           pose proof (Z.mod_pos_bound (millis_stamp i) (2 ^ 32)) as Hm.
           destruct (Z.ltb_spec (millis_stamp i mod 2 ^ 32) (2 ^ 31)); lia.
        -- destruct (loop_retain s i Hp He) as [_ Ht]. rewrite Ht.
           exact Hrange.
      * destruct (loop_absent s i Hp) as [_ Ht]. rewrite Ht. exact Hrange.
    + rewrite loop_activityStatus. intros Hidle.
      destruct (classify_labels
                  (totalAccel (accel_x i) (accel_y i) (accel_z i)))
        as [H | [H | H]]; rewrite H in Hidle; discriminate.
Qed.

Lemma tick_boundary_invariant_witness :
  SSD1306.buffer (display (loop powered_on (still_tick HIGH 4294967000)))
  = frame (loop powered_on (still_tick HIGH 4294967000))
  /\ lastBPMUpdate (loop powered_on (still_tick HIGH 4294967000)) = -296.
Proof.
  assert (Hr : reachable (loop powered_on (still_tick HIGH 4294967000)))
    by (apply reach_loop; exact powered_on_reachable).
  split; [apply (tick_boundary_invariant Hr) | reflexivity].
Defined.

(** ** The magnitude of unusual samples *)

Lemma shr_fexp_nonneg (prec emax m e : Z) (l : location) :
  0 <= m -> 0 <= shr_m (fst (shr_fexp prec emax m e l)).
Proof.
  intros Hm. unfold shr_fexp, shr.
  assert (Hrec : shr_m (shr_record_of_loc m l) = m)
    by (destruct l as [| []]; reflexivity).
  destruct (fexp prec emax (Zdigits2 m + e) - e) as [| n | n];
    cbn [fst]; try (rewrite Hrec; exact Hm).
  apply iter_shr_1. rewrite Hrec. exact Hm.
Qed.

(** Rounding a non-negative significand gives a zero, a number or an
    infinity of the requested sign, never a NaN. *)
Lemma binary_round_aux_sign (prec emax : Z) (sx : bool) (mx ex : Z)
    (lx : location) :
  0 <= mx ->
  (exists m e, binary_round_aux prec emax sx mx ex lx = S754_finite sx m e)
  \/ binary_round_aux prec emax sx mx ex lx = S754_zero sx
  \/ binary_round_aux prec emax sx mx ex lx = S754_infinity sx.
Proof.
  intros Hm. unfold binary_round_aux.
  pose proof (@shr_fexp_nonneg prec emax mx ex lx Hm) as H1.
  destruct (shr_fexp prec emax mx ex lx) as [mrs1 e1]. cbn [fst] in H1.
  pose proof (@round_nearest_even_bounds (shr_m mrs1) (loc_of_shr_record mrs1))
    as Hb.
  set (m1 := round_nearest_even (shr_m mrs1) (loc_of_shr_record mrs1)) in *.
  assert (Hm1 : 0 <= m1) by lia.
  pose proof (@shr_fexp_nonneg prec emax m1 e1 loc_Exact Hm1) as H2.
  destruct (shr_fexp prec emax m1 e1 loc_Exact) as [mrs2 e2]. cbn [fst] in H2.
  destruct (shr_m mrs2) as [| p | p]; [right; left; reflexivity | | lia].
  destruct (e2 <=? emax - prec); [left; exists p, e2 | right; right];
    reflexivity.
Qed.

Lemma binary_round_aux_nonneg (mx ex : Z) (lx : location) :
  0 <= mx ->
  nonneg (binary_round_aux Float32.prec Float32.emax false mx ex lx) = true.
Proof.
  intros Hm.
  destruct (@binary_round_aux_sign Float32.prec Float32.emax false mx ex lx Hm)
    as [(m & e & H) | [H | H]]; rewrite H; reflexivity.
Qed.

Lemma fsq_nonneg (x : Float32.float) :
  is_nan x = false -> nonneg (Float32.sq x) = true.
Proof.
  intros Hx. unfold Float32.sq, Float32.mul.
  destruct x as [s | s | | s m e]; try discriminate;
    cbn [SFmul]; rewrite ?xorb_nilpotent; try reflexivity.
  apply binary_round_aux_nonneg. lia.
Qed.

Lemma fadd_nonneg (x y : Float32.float) :
  nonneg x = true -> nonneg y = true -> nonneg (Float32.add x y) = true.
Proof.
  unfold Float32.add.
  destruct x as [[|] | [|] | | [|] mx ex]; try discriminate;
    destruct y as [[|] | [|] | | [|] my ey]; try discriminate;
    intros _ _; try reflexivity.
  cbn [SFadd cond_Zopp Z.add binary_normalize]. unfold binary_round.
  destruct (shl_align _ _ _) as [mz ez].
  apply binary_round_aux_nonneg. lia.
Qed.

Lemma fsqrt_nonneg (x : Float32.float) :
  nonneg x = true -> nonneg (Float32.sqrt x) = true.
Proof.
  unfold Float32.sqrt.
  destruct x as [[|] | [|] | | [|] m e]; try discriminate;
    intros _; try reflexivity.
  cbn [SFsqrt]. destruct (SFsqrt_core_binary _ _ _ _) as [[mz ez] lz] eqn:Hc.
  apply binary_round_aux_nonneg.
  unfold SFsqrt_core_binary in Hc.
  pose proof (Z.sqrtrem_sqrt
    (match e - 2 * Z.min (fexp Float32.prec Float32.emax
                            (Z.div2 (Zdigits2 (Zpos m) + e + 1))) (Z.div2 e)
     with
     | 0 => Zpos m
     | Zpos _ => Z.shiftl (Zpos m)
                   (e - 2 * Z.min (fexp Float32.prec Float32.emax
                                     (Z.div2 (Zdigits2 (Zpos m) + e + 1)))
                                  (Z.div2 e))
     | Zneg _ => 0
     end)) as Hq.
  destruct (Z.sqrtrem _) as [q r]. cbn [fst] in Hq.
  injection Hc as <- _ _. rewrite Hq. apply Z.sqrt_nonneg.
Qed.

Lemma fadd_inf_l (y : Float32.float) :
  nonneg y = true ->
  Float32.add (S754_infinity false) y = S754_infinity false.
Proof.
  destruct y as [[|] | [|] | | [|] m e]; try discriminate; reflexivity.
Qed.

Lemma fadd_inf_r (x : Float32.float) :
  nonneg x = true ->
  Float32.add x (S754_infinity false) = S754_infinity false.
Proof.
  destruct x as [[|] | [|] | | [|] m e]; try discriminate; reflexivity.
Qed.

Lemma fsq_inf (x : Float32.float) :
  is_inf x = true -> Float32.sq x = S754_infinity false.
Proof. destruct x as [s | [|] | | s m e]; try discriminate; reflexivity. Qed.

Lemma fadd_nan_l (y : Float32.float) : Float32.add S754_nan y = S754_nan.
Proof. reflexivity. Qed.

Lemma fadd_nan_r (x : Float32.float) : Float32.add x S754_nan = S754_nan.
Proof. destruct x as [s | s | | s m e]; reflexivity. Qed.

Lemma fsq_nan (x : Float32.float) :
  is_nan x = true -> Float32.sq x = S754_nan.
Proof. destruct x; try discriminate; reflexivity. Qed.

(** X7: the magnitude is a NaN exactly when a component of the sample is
    one, and then the label is "Moving"; otherwise the magnitude is never
    negative, and if a component is infinite it is plus infinity and the
    label is "Active". *)
Theorem unusual_samples (ax ay az : Float32.float) :
  (is_nan (totalAccel ax ay az) = true
   <-> is_nan ax = true \/ is_nan ay = true \/ is_nan az = true)
  /\ (is_nan (totalAccel ax ay az) = true ->
      classify (totalAccel ax ay az) = "Moving"%string)
  /\ (is_nan (totalAccel ax ay az) = false ->
      nonneg (totalAccel ax ay az) = true)
  /\ (is_nan (totalAccel ax ay az) = false ->
      is_inf ax = true \/ is_inf ay = true \/ is_inf az = true ->
      totalAccel ax ay az = S754_infinity false
      /\ classify (totalAccel ax ay az) = "Active"%string).
Proof.
  assert (Hclean : is_nan ax = false -> is_nan ay = false ->
                   is_nan az = false ->
                   nonneg (totalAccel ax ay az) = true).
  { intros Hx Hy Hz. unfold totalAccel.
    apply fsqrt_nonneg. apply fadd_nonneg; [apply fadd_nonneg |];
      apply fsq_nonneg; assumption. }
  assert (Hnn : forall x : Float32.float, nonneg x = true -> is_nan x = false)
    by (intros [s | s | | s m e]; try discriminate; reflexivity).
  assert (Hiff : is_nan (totalAccel ax ay az) = true
                 <-> is_nan ax = true \/ is_nan ay = true \/ is_nan az = true).
  { split.
    - intros Hn.
      destruct (is_nan ax) eqn:Hx; [left; reflexivity |].
      destruct (is_nan ay) eqn:Hy; [right; left; reflexivity |].
      destruct (is_nan az) eqn:Hz; [right; right; reflexivity |].
      rewrite (Hnn _ (Hclean eq_refl eq_refl eq_refl)) in Hn. discriminate.
    - unfold totalAccel. intros [H | [H | H]]; rewrite (fsq_nan _ H).
      + rewrite !fadd_nan_l. reflexivity.
      + rewrite fadd_nan_r, fadd_nan_l. reflexivity.
      + rewrite fadd_nan_r. reflexivity. }
  split; [exact Hiff |]. split; [| split].
  - destruct (totalAccel ax ay az); try discriminate. reflexivity.
  - intros Hn.
    destruct (is_nan ax) eqn:Hx;
      [rewrite (proj2 Hiff (or_introl eq_refl)) in Hn; discriminate |].
    destruct (is_nan ay) eqn:Hy;
      [rewrite (proj2 Hiff (or_intror (or_introl eq_refl))) in Hn;
       discriminate |].
    destruct (is_nan az) eqn:Hz;
      [rewrite (proj2 Hiff (or_intror (or_intror eq_refl))) in Hn;
       discriminate |].
    apply Hclean; reflexivity.
  - intros Hn Hinf.
    assert (Hx : is_nan ax = false)
      by (destruct (is_nan ax) eqn:E; [| reflexivity];
          rewrite (proj2 Hiff (or_introl eq_refl)) in Hn; discriminate).
    assert (Hy : is_nan ay = false)
      by (destruct (is_nan ay) eqn:E; [| reflexivity];
          rewrite (proj2 Hiff (or_intror (or_introl eq_refl))) in Hn;
          discriminate).
    assert (Hz : is_nan az = false)
      by (destruct (is_nan az) eqn:E; [| reflexivity];
          rewrite (proj2 Hiff (or_intror (or_intror eq_refl))) in Hn;
          discriminate).
    assert (Hm : totalAccel ax ay az = S754_infinity false).
    { unfold totalAccel.
      pose proof (fsq_nonneg ax Hx) as Nx. pose proof (fsq_nonneg ay Hy) as Ny.
      pose proof (fsq_nonneg az Hz) as Nz.
      destruct Hinf as [H | [H | H]]; rewrite (fsq_inf _ H) in *.
      - rewrite (fadd_inf_l _ Ny), (fadd_inf_l _ Nz). reflexivity.
      - rewrite (fadd_inf_r _ Nx), (fadd_inf_l _ Nz). reflexivity.
      - rewrite (fadd_inf_r _ (fadd_nonneg _ _ Nx Ny)). reflexivity. }
    split; [exact Hm | rewrite Hm; reflexivity].
Qed.

Lemma unusual_samples_witness :
  classify (totalAccel (S754_zero false) S754_nan gravity) = "Moving"%string
  /\ classify (totalAccel (S754_infinity true) (S754_zero false) gravity)
     = "Active"%string.
Proof.
  split.
  - apply (proj1 (proj2 (unusual_samples (S754_zero false) S754_nan gravity))).
    reflexivity.
  - apply (proj2 (proj2 (proj2
             (unusual_samples (S754_infinity true) (S754_zero false)
                              gravity)))).
    + reflexivity.
    + left. reflexivity.
Defined.

(** ** Orientation of the band *)

Lemma fsq_opp (x : Float32.float) : Float32.sq (SFopp x) = Float32.sq x.
Proof.
  unfold Float32.sq, Float32.mul.
  destruct x as [[|] | [|] | | [|] m e]; reflexivity.
Qed.

Lemma fadd_comm (x y : Float32.float) : Float32.add x y = Float32.add y x.
Proof.
  unfold Float32.add.
  destruct x as [[|] | [|] | | sx mx ex];
    destruct y as [[|] | [|] | | sy my ey]; try reflexivity.
  cbn [SFadd]. rewrite (Z.min_comm ey ex). f_equal. apply Z.add_comm.
Qed.

(** X6: the magnitude, and with it the label, does not depend on the
    sign of any component of the sample, nor on which of the first two
    axes is which: two ticks whose samples differ only that way compute
    the same magnitude and end with the same label, whatever states they
    start from. *)
Theorem orientation_symmetry (i j : TickInput) :
  ((accel_x j = accel_x i \/ accel_x j = SFopp (accel_x i))
   /\ (accel_y j = accel_y i \/ accel_y j = SFopp (accel_y i))
   /\ (accel_z j = accel_z i \/ accel_z j = SFopp (accel_z i)))
  \/ (accel_x j = accel_y i /\ accel_y j = accel_x i
      /\ accel_z j = accel_z i) ->
  totalAccel (accel_x j) (accel_y j) (accel_z j)
  = totalAccel (accel_x i) (accel_y i) (accel_z i)
  /\ (forall s s' : State,
        activityStatus (loop s j) = activityStatus (loop s' i)).
Proof.
  intros H.
  assert (Hm : totalAccel (accel_x j) (accel_y j) (accel_z j)
               = totalAccel (accel_x i) (accel_y i) (accel_z i)).
  { unfold totalAccel.
    destruct H as [(Hx & Hy & Hz) | (Hx & Hy & Hz)].
    - destruct Hx as [-> | ->], Hy as [-> | ->], Hz as [-> | ->];
        rewrite ?fsq_opp; reflexivity.
    - rewrite Hx, Hy, Hz.
      rewrite (fadd_comm (Float32.sq (accel_y i)) (Float32.sq (accel_x i))).
      reflexivity. }
  split; [exact Hm |].
  intros s s'. rewrite !loop_activityStatus, Hm. reflexivity.
Qed.

Lemma orientation_symmetry_witness :
  activityStatus
    (loop powered_on
          (mkTick HIGH 1200 1200 7 (SFopp eleven) gravity (SFopp twelve) 512))
  = activityStatus
      (loop powered_on (mkTick LOW 900 900 3 eleven gravity twelve 0)).
Proof.
  apply (@orientation_symmetry
           (mkTick LOW 900 900 3 eleven gravity twelve 0)
           (mkTick HIGH 1200 1200 7 (SFopp eleven) gravity (SFopp twelve)
                   512)).
  left. split; [right; reflexivity |].
  split; [left; reflexivity | right; reflexivity].
Defined.

(** ** Decimal text of an [int] *)

Lemma of_uint_acc_lower (d : Decimal.uint) :
  forall acc : positive,
    Zpos acc * 10 ^ Z.of_nat (Decimal.nb_digits d)
    <= Zpos (Pos.of_uint_acc d acc).
Proof.
  induction d as [| d IH | d IH | d IH | d IH | d IH | d IH | d IH | d IH
                  | d IH | d IH]; intros acc;
    cbn [Pos.of_uint_acc Decimal.nb_digits];
    [rewrite Z.pow_0_r; lia | ..];
    rewrite Nat2Z.inj_succ, Z.pow_succ_r by lia;
    (eapply Z.le_trans; [| apply IH]);
    pose proof (Z.pow_pos_nonneg 10 (Z.of_nat (Decimal.nb_digits d)));
    nia.
Qed.

Lemma to_uint_head (p : positive) :
  Pos.to_uint p <> Decimal.Nil
  /\ forall l, Pos.to_uint p <> Decimal.D0 l.
Proof.
  split; [apply DecimalPos.Unsigned.to_uint_nonnil |].
  intros l Hl.
  pose proof (DecimalPos.Unsigned.to_of (Pos.to_uint p)) as H.
  rewrite DecimalPos.Unsigned.of_to in H. cbn [N.to_uint] in H.
  rewrite Hl, DecimalFacts.unorm_D0 in H.
  unfold Decimal.unorm in H.
  destruct (Decimal.nzhead l) eqn:Hn; try discriminate.
  - injection H as ->.
    exact (DecimalPos.Unsigned.to_uint_nonzero p Hl).
  - exact (DecimalFacts.nzhead_nonzero l _ Hn).
Qed.

(** A number with [k] decimal digits is at least [10^(k-1)]. *)
Lemma to_uint_digits (p : positive) :
  10 ^ (Z.of_nat (Decimal.nb_digits (Pos.to_uint p)) - 1) <= Zpos p.
Proof.
  destruct (to_uint_head p) as [Hnil Hzero].
  pose proof (DecimalPos.Unsigned.of_to p) as Hof.
  destruct (Pos.to_uint p) as [| l | l | l | l | l | l | l | l | l | l];
    [contradiction | exfalso; exact (Hzero l eq_refl) | ..];
    cbn [Pos.of_uint] in Hof; injection Hof as <-;
    cbn [Decimal.nb_digits]; rewrite Nat2Z.inj_succ;
    replace (Z.succ (Z.of_nat (Decimal.nb_digits l)) - 1)
      with (Z.of_nat (Decimal.nb_digits l)) by lia;
    (eapply Z.le_trans; [| apply of_uint_acc_lower]);
    pose proof (Z.pow_pos_nonneg 10 (Z.of_nat (Decimal.nb_digits l)));
    nia.
Qed.

Lemma string_of_uint_plain (d : Decimal.uint) :
  String.length (DecimalString.NilEmpty.string_of_uint d)
  = Decimal.nb_digits d
  /\ plain (DecimalString.NilEmpty.string_of_uint d) = true.
Proof.
  induction d as [| d [IHl IHp] | d [IHl IHp] | d [IHl IHp] | d [IHl IHp]
                  | d [IHl IHp] | d [IHl IHp] | d [IHl IHp] | d [IHl IHp]
                  | d [IHl IHp] | d [IHl IHp]];
    cbn [DecimalString.NilEmpty.string_of_uint String.length
         Decimal.nb_digits plain];
    [split; reflexivity | ..];
    (split; [rewrite IHl; reflexivity | rewrite IHp; reflexivity]).
Qed.

Lemma nat_digits_small (p : positive) :
  Zpos p <= 2 ^ 31 -> (Decimal.nb_digits (Pos.to_uint p) <= 10)%nat.
Proof.
  intros Hp. pose proof (to_uint_digits p) as Hd.
  destruct (le_lt_dec (Decimal.nb_digits (Pos.to_uint p)) 10) as [H | H];
    [exact H | exfalso].
  assert (Hpow : 10 ^ 10
                 <= 10 ^ (Z.of_nat (Decimal.nb_digits (Pos.to_uint p)) - 1))
    by (apply Z.pow_le_mono_r; lia).
  lia.
Qed.

(** The decimal text of an [int] has at most 11 characters, none of them
    a line feed or a carriage return. *)
Lemma print_int_plain (n : Z) :
  int_range n ->
  (String.length (print_int n) <= 11)%nat /\ plain (print_int n) = true.
Proof.
  unfold int_range, print_int. intros Hn.
  destruct n as [| p | p]; cbn [Z.to_int DecimalString.NilZero.string_of_int].
  - split; [cbn; lia | reflexivity].
  - destruct (to_uint_head p) as [Hnil _].
    pose proof (@nat_digits_small p ltac:(lia)) as Hd.
    destruct (string_of_uint_plain (Pos.to_uint p)) as [Hl Hp].
    unfold DecimalString.NilZero.string_of_uint.
    destruct (Pos.to_uint p); [contradiction | ..];
      (split; [rewrite Hl; lia | exact Hp]).
  - destruct (to_uint_head p) as [Hnil _].
    pose proof (@nat_digits_small p ltac:(lia)) as Hd.
    destruct (string_of_uint_plain (Pos.to_uint p)) as [Hl Hp].
    unfold DecimalString.NilZero.string_of_uint.
    destruct (Pos.to_uint p); [contradiction | ..];
      cbn [String.length plain]; rewrite Hp;
      (split; [rewrite Hl; lia | reflexivity]).
Qed.

(** Different numbers have different decimal texts. *)
Lemma print_int_inj (n n' : Z) : print_int n = print_int n' -> n = n'.
Proof.
  unfold print_int. intros H.
  apply DecimalZ.to_int_inj.
  assert (Hnn : forall z, Z.to_int z <> Decimal.Pos Decimal.Nil
                          /\ Z.to_int z <> Decimal.Neg Decimal.Nil).
  { intros [| q | q]; cbn [Z.to_int]; split; try discriminate;
      intros E; injection E as E;
      exact (DecimalPos.Unsigned.to_uint_nonnil q E). }
  pose proof (DecimalString.NilZero.isi (Z.to_int n)
                (proj1 (Hnn n)) (proj2 (Hnn n))) as H1.
  pose proof (DecimalString.NilZero.isi (Z.to_int n')
                (proj1 (Hnn n')) (proj2 (Hnn n'))) as H2.
  rewrite H in H1. rewrite H1 in H2. injection H2 as ->. reflexivity.
Qed.

(** ** Text that stays on its line *)

Lemma text_cons (x y : Z) (c : ascii) (s : string) :
  Ascii.eqb c "010" = false -> Ascii.eqb c "013" = false ->
  x + 6 <= 128 ->
  text x y (String c s)
  = SSD1306.Glyph x y c 1 SSD1306.SSD1306_WHITE :: text (x + 6) y s.
Proof.
  intros Hlf Hcr Hx. unfold text, SSD1306.text_at.
  cbn [SSD1306.print]. rewrite print_frame.
  unfold SSD1306.write. rewrite Hlf, Hcr.
  replace (x + 1 * 6) with (x + 6) by lia.
  destruct (Z.gtb_spec (x + 6) SSD1306.SCREEN_WIDTH) as [Hw | _];
    [unfold SSD1306.SCREEN_WIDTH in Hw; lia |].
  cbn [SSD1306.buffer SSD1306.textsize SSD1306.textcolor SSD1306.cursor_x
       SSD1306.cursor_y app].
  reflexivity.
Qed.

(** A text without line breaks that ends before the right edge is drawn
    on one line, one glyph every 6 pixels. *)
Lemma text_plain (s : string) :
  forall x y : Z,
    plain s = true ->
    x + 6 * Z.of_nat (String.length s) <= 128 ->
    text x y s = glyph_row x y s.
Proof.
  induction s as [| c s IH]; intros x y Hp Hx.
  - reflexivity.
  - cbn [plain] in Hp. apply andb_true_iff in Hp. destruct Hp as [Hp Hs].
    apply andb_true_iff in Hp. destruct Hp as [Hlf Hcr].
    apply negb_true_iff in Hlf. apply negb_true_iff in Hcr.
    cbn [String.length] in Hx. rewrite Nat2Z.inj_succ in Hx.
    rewrite text_cons by (assumption || lia).
    cbn [glyph_row]. f_equal. apply IH; [exact Hs | lia].
Qed.

Lemma glyph_row_app (s t : string) :
  forall x y : Z,
    glyph_row x y (s ++ t)
    = glyph_row x y s ++ glyph_row (x + 6 * Z.of_nat (String.length s)) y t.
Proof.
  induction s as [| c s IH]; intros x y.
  - cbn [String.append glyph_row String.length app].
    replace (x + 6 * Z.of_nat 0) with x by lia. reflexivity.
  - cbn [String.append glyph_row String.length app]. rewrite IH.
    replace (x + 6 + 6 * Z.of_nat (String.length s))
      with (x + 6 * Z.of_nat (S (String.length s))) by lia.
    reflexivity.
Qed.

Lemma glyph_row_inside (s : string) :
  forall x y : Z,
    0 <= x -> x + 6 * Z.of_nat (String.length s) <= 128 ->
    0 <= y <= 56 ->
    forall op, In op (glyph_row x y s) -> cell_inside op /\ row_of op = y.
Proof.
  induction s as [| c s IH]; intros x y Hx Hlen Hy op Hin.
  - destruct Hin.
  - cbn [String.length] in Hlen. rewrite Nat2Z.inj_succ in Hlen.
    destruct Hin as [<- | Hin].
    + unfold cell_inside, SSD1306.SCREEN_WIDTH, SSD1306.SCREEN_HEIGHT.
      cbn [row_of]. lia.
    + apply (IH (x + 6) y); try lia. exact Hin.
Qed.

Lemma glyph_row_inj (s t : string) :
  forall x y : Z, glyph_row x y s = glyph_row x y t -> s = t.
Proof.
  revert t. induction s as [| c s IH]; intros [| c' t] x y H;
    cbn [glyph_row] in H; try discriminate; [reflexivity |].
  injection H as -> H. f_equal. exact (IH _ _ _ H).
Qed.

Lemma reachable_bpm (s : State) :
  reachable s -> simulatedBPM s = 0 \/ 68 <= simulatedBPM s <= 84.
Proof.
  induction 1 as [b s Hb | s i _ IH].
  - left. apply (setup_frame b Hb).
  - destruct (finger_pin i =? HIGH) eqn:Hp.
    + destruct (elapsed i s >? 2000) eqn:He.
      * right. destruct (loop_regenerate s i Hp He) as [Hv _].
        rewrite Hv. pose proof (random_68_85 (entropy i)). lia.
      * destruct (loop_retain s i Hp He) as [Hv _]. rewrite Hv. exact IH.
    + left. apply (loop_absent s i Hp).
Qed.

Lemma length_append (s t : string) :
  String.length (s ++ t) = (String.length s + String.length t)%nat.
Proof.
  induction s as [| c s IH]; cbn; [reflexivity | rewrite IH; reflexivity].
Qed.

(** The data layout of values in [int] range under one of the three
    labels is three single lines. *)
Lemma data_layout_rows_eq (bpm : Z) (status : string) (ecgValue : Z) :
  int_range bpm -> int_range ecgValue ->
  status = "Active"%string \/ status = "Resting"%string
  \/ status = "Moving"%string ->
  data_layout bpm status ecgValue = data_rows bpm status ecgValue.
Proof.
  intros Hb He Hst. unfold data_layout, data_rows.
  destruct (print_int_plain Hb) as [Hbl Hbp].
  destruct (print_int_plain He) as [Hel Hep].
  rewrite !glyph_row_app.
  rewrite (text_plain (print_int bpm)) by (assumption || lia).
  rewrite (text_plain (print_int ecgValue)) by (assumption || lia).
  rewrite (text_plain status)
    by (destruct Hst as [-> | [-> | ->]]; (reflexivity || (cbn; lia))).
  rewrite (text_plain "BPM: ") by (reflexivity || (cbn; lia)).
  rewrite (text_plain "Status: ") by (reflexivity || (cbn; lia)).
  rewrite (text_plain "ECG: ") by (reflexivity || (cbn; lia)).
  rewrite <- !app_assoc. reflexivity.
Qed.

Lemma loop_frame_rows (s : State) (i : TickInput) :
  reachable s -> int_range (ecg_adc i) ->
  frame (loop s i)
  = header_rows
    ++ (if fingerDetected (loop s i)
        then data_rows (simulatedBPM (loop s i)) (activityStatus (loop s i))
                       (ecg_adc i)
        else warning_rows).
Proof.
  intros Hr He.
  destruct (loop_frame s i (reachable_text_ready Hr)) as [Hf _].
  rewrite Hf. unfold render.
  assert (Hh : header_layout = header_rows).
  { unfold header_layout, header_rows.
    rewrite (text_plain "HEALTH MONITOR") by (reflexivity || (cbn; lia)).
    reflexivity. }
  rewrite Hh. f_equal.
  destruct (fingerDetected (loop s i)).
  - apply data_layout_rows_eq; [| exact He |].
    + pose proof (reachable_bpm (reach_loop i Hr)) as Hb.
      unfold int_range. lia.
    + rewrite loop_activityStatus. apply classify_labels.
  - unfold warning_layout, warning_rows.
    rewrite (text_plain "NO FINGER") by (reflexivity || (cbn; lia)).
    rewrite (text_plain "DETECTED") by (reflexivity || (cbn; lia)).
    reflexivity.
Qed.

(** X8: for every [int] sample of the ADC no text of the frame wraps or
    leaves the panel: the frame is the header line, the separator and
    either the two warning lines or the three field lines, each a single
    row of glyphs 6 pixels apart, and every glyph cell lies inside the
    128x64 panel. *)
Theorem frame_within_panel (s : State) (i : TickInput) :
  reachable s ->
  int_range (ecg_adc i) ->
  frame (loop s i)
  = header_rows
    ++ (if fingerDetected (loop s i)
        then data_rows (simulatedBPM (loop s i)) (activityStatus (loop s i))
                       (ecg_adc i)
        else warning_rows)
  /\ (forall op, In op (frame (loop s i)) ->
        cell_inside op /\ In (row_of op) [0; 10; 15; 27; 39; 25; 35]).
Proof.
  intros Hr He. pose proof (loop_frame_rows i Hr He) as Hf.
  split; [exact Hf |]. rewrite Hf.
  assert (Hrow : forall (x y : Z) (t : string) (op : SSD1306.DrawOp),
             0 <= x -> x + 6 * Z.of_nat (String.length t) <= 128 ->
             In y [0; 10; 15; 27; 39; 25; 35] ->
             In op (glyph_row x y t) ->
             cell_inside op /\ In (row_of op) [0; 10; 15; 27; 39; 25; 35]).
  { intros x y t op Hx Hlen Hy Hin.
    assert (Hy' : 0 <= y <= 56)
      by (cbn [In] in Hy; intuition lia).
    destruct (glyph_row_inside t Hx Hlen Hy' op Hin) as [Hc Hro].
    split; [exact Hc | rewrite Hro; exact Hy]. }
  intros op Hin. apply in_app_or in Hin. destruct Hin as [Hin | Hin].
  - unfold header_rows in Hin. apply in_app_or in Hin.
    destruct Hin as [Hin | [<- | []]].
    + revert Hin. apply Hrow; cbn; try lia; tauto.
    + split; [exact I | cbn; tauto].
  - destruct (fingerDetected (loop s i)).
    + pose proof (reachable_bpm (reach_loop i Hr)) as Hb.
      assert (Hbr : int_range (simulatedBPM (loop s i)))
        by (unfold int_range; lia).
      destruct (print_int_plain Hbr) as [Hbl _].
      destruct (print_int_plain He) as [Hel _].
      assert (Hsl : (String.length (activityStatus (loop s i)) <= 7)%nat).
      { rewrite loop_activityStatus.
        destruct (classify_labels
                    (totalAccel (accel_x i) (accel_y i) (accel_z i)))
          as [H | [H | H]]; rewrite H; cbn; lia. }
      unfold data_rows in Hin.
      apply in_app_or in Hin. destruct Hin as [Hin | Hin];
        [| apply in_app_or in Hin; destruct Hin as [Hin | Hin]];
        revert Hin; apply Hrow; try lia;
        rewrite ?length_append; cbn [String.length In]; try lia; tauto.
    + unfold warning_rows in Hin. apply in_app_or in Hin.
      destruct Hin as [Hin | Hin]; revert Hin; apply Hrow; cbn; try lia;
        tauto.
Qed.

Lemma frame_within_panel_witness :
  frame (loop powered_on
              (mkTick HIGH 2001 2001 7 (S754_zero false) (S754_zero false)
                      gravity (-2147483648)))
  = header_rows ++ data_rows 75 "Resting" (-2147483648)
  /\ In (SSD1306.Glyph 90 39 "8" 1 1)
        (frame (loop powered_on
                     (mkTick HIGH 2001 2001 7 (S754_zero false)
                             (S754_zero false) gravity (-2147483648)))).
Proof.
  assert (He : int_range (ecg_adc
                 (mkTick HIGH 2001 2001 7 (S754_zero false) (S754_zero false)
                         gravity (-2147483648))))
    by (unfold int_range; cbn; lia).
  destruct (frame_within_panel
              (mkTick HIGH 2001 2001 7 (S754_zero false) (S754_zero false)
                      gravity (-2147483648))
              powered_on_reachable He) as [Hf _].
  split.
  - rewrite Hf. vm_compute. reflexivity.
  - rewrite Hf. vm_compute. tauto.
Defined.

(** ** Reading the frame back *)

Lemma split_rows (y : Z) (l1 : SSD1306.Frame) :
  forall l2 r1 r2 : SSD1306.Frame,
    (forall op, In op l1 -> row_of op = y) ->
    (forall op, In op l2 -> row_of op = y) ->
    starts_off y r1 -> starts_off y r2 ->
    l1 ++ r1 = l2 ++ r2 -> l1 = l2 /\ r1 = r2.
Proof.
  induction l1 as [| a l1 IH]; intros [| b l2] r1 r2 H1 H2 S1 S2 Heq.
  - split; [reflexivity | exact Heq].
  - cbn [app] in Heq. subst r1. cbn [starts_off] in S1.
    exfalso. apply S1. apply H2. left. reflexivity.
  - cbn [app] in Heq. subst r2. cbn [starts_off] in S2.
    exfalso. apply S2. apply H1. left. reflexivity.
  - cbn [app] in Heq. injection Heq as -> Heq.
    destruct (IH l2 r1 r2) as [-> ->]; try assumption.
    + intros op Hin. apply H1. right. exact Hin.
    + intros op Hin. apply H2. right. exact Hin.
    + split; reflexivity.
Qed.

Lemma glyph_row_rows (s : string) :
  forall (x y : Z) (op : SSD1306.DrawOp),
    In op (glyph_row x y s) -> row_of op = y.
Proof.
  induction s as [| c s IH]; intros x y op Hin.
  - destruct Hin.
  - destruct Hin as [<- | Hin]; [reflexivity | exact (IH _ _ _ Hin)].
Qed.

Lemma data_rows_inj (b1 b2 : Z) (st1 st2 : string) (e1 e2 : Z) :
  data_rows b1 st1 e1 = data_rows b2 st2 e2 ->
  b1 = b2 /\ st1 = st2 /\ e1 = e2.
Proof.
  unfold data_rows. intros H.
  apply split_rows with (y := 15) in H;
    try (intros op Hin; exact (glyph_row_rows _ _ _ _ Hin));
    try (cbn; lia).
  destruct H as [Hb H].
  apply split_rows with (y := 27) in H;
    try (intros op Hin; exact (glyph_row_rows _ _ _ _ Hin));
    try (cbn; lia).
  destruct H as [Hs He].
  apply glyph_row_inj in Hb. apply glyph_row_inj in Hs.
  apply glyph_row_inj in He.
  cbn [String.append] in Hb, Hs, He.
  injection Hb as Hb. injection Hs as Hs. injection He as He.
  split; [exact (@print_int_inj _ _ Hb) |].
  split; [exact Hs | exact (@print_int_inj _ _ He)].
Qed.

(** X9: the frame loses nothing of what it shows.  If two ticks of the
    running sketch, both with [int] samples of the ADC, commit the same
    frame, then they agree on presence and, with a finger detected, also
    on the heart-rate value, the activity label and the ADC sample. *)
Theorem frame_decodes (s1 s2 : State) (i1 i2 : TickInput) :
  reachable s1 -> reachable s2 ->
  int_range (ecg_adc i1) -> int_range (ecg_adc i2) ->
  frame (loop s1 i1) = frame (loop s2 i2) ->
  fingerDetected (loop s1 i1) = fingerDetected (loop s2 i2)
  /\ (fingerDetected (loop s1 i1) = true ->
      simulatedBPM (loop s1 i1) = simulatedBPM (loop s2 i2)
      /\ activityStatus (loop s1 i1) = activityStatus (loop s2 i2)
      /\ ecg_adc i1 = ecg_adc i2).
Proof.
  intros Hr1 Hr2 He1 He2.
  rewrite (loop_frame_rows i1 Hr1 He1), (loop_frame_rows i2 Hr2 He2).
  intros H. apply app_inv_head in H.
  destruct (fingerDetected (loop s1 i1)), (fingerDetected (loop s2 i2)).
  - split; [reflexivity | intros _; exact (data_rows_inj H)].
  - unfold data_rows in H. cbn in H. discriminate.
  - unfold data_rows in H. cbn in H. discriminate.
  - split; [reflexivity | discriminate].
Qed.

Lemma frame_decodes_witness :
  fingerDetected (loop powered_on (still_tick HIGH 2500))
  = fingerDetected (loop (loop powered_on (still_tick LOW 1200))
                         (still_tick HIGH 2500))
  /\ simulatedBPM (loop powered_on (still_tick HIGH 2500))
     = simulatedBPM (loop (loop powered_on (still_tick LOW 1200))
                          (still_tick HIGH 2500)).
Proof.
  assert (Hr2 : reachable (loop powered_on (still_tick LOW 1200)))
    by (apply reach_loop; exact powered_on_reachable).
  assert (He : int_range (ecg_adc (still_tick HIGH 2500)))
    by (unfold int_range; cbn; lia).
  assert (Hf : frame (loop powered_on (still_tick HIGH 2500))
               = frame (loop (loop powered_on (still_tick LOW 1200))
                             (still_tick HIGH 2500)))
    by (vm_compute; reflexivity).
  destruct (frame_decodes (still_tick HIGH 2500) (still_tick HIGH 2500)
              powered_on_reachable Hr2 He He Hf) as [Hp Hd].
  split; [exact Hp |].
  apply Hd. vm_compute. reflexivity.
Defined.
